(** * build.py: the staged build pipeline of ha-desktop-remote

    A shallow embedding of [build.py] and the properties of its pipeline
    runner.  The script talks to four things outside itself: the process
    arguments and standard input, the entries of the current directory, the
    set of importable Python modules, and the shell that runs external
    commands.  They are gathered in a [process] state that every function of
    the script threads through; what an external command answers and what it
    does to the host is left to a [shell] oracle, so every theorem holds for
    every behaviour of the tools.

    Modelling conventions.
    - A Python function is a computation [M pyval] returning the Python value
      the source returns ([None] for a function without [return]).
    - [sys.exit(n)] and an uncaught exception end the computation; [bind]
      skips whatever follows them.
    - The log records, in order, what the run did: text written to standard
      output, lines read, directory entries removed, imports attempted,
      commands handed to the shell, and a [Call] mark at the entry of each
      step function of the script.
    - [str.lower] is modelled on ASCII letters.  The script only compares
      lowercased text with the ASCII literals "clean", "build",
      "test-upload", "upload" and "y".
    - Directory entries are classified by what [Path.is_dir] and
      [Path.is_file] answer and by what [shutil.rmtree] does with them: a
      symbolic link to a directory counts as a directory for [is_dir], and
      [rmtree] refuses it with [OSError].  Which directories and files the
      operating system refuses to remove is left to a [denied] oracle; on
      those [rmtree] and [unlink] raise [OSError] too.  The script catches
      no [OSError].
    - The order in which a directory is listed is left to a [scandir]
      oracle. *)

From stdpp Require Import gmap strings list fin_maps.
From Stdlib Require Import ZArith Ascii String.

Local Open Scope string_scope.
Local Open Scope list_scope.

(** ** Python values and strings *)

(** The values the script's functions hand back to [main]. *)
Inductive pyval :=
| PyNone
| PyBool (b : bool).

(** Python truth value testing, as used by [if not step_func()]. *)
Definition truthy (v : pyval) : bool :=
  match v with
  | PyNone => false
  | PyBool b => b
  end.

Definition nl : string := String (ascii_of_nat 10) EmptyString.

Definition lower_ascii (c : ascii) : ascii :=
  let n := nat_of_ascii c in
  if Nat.leb 65 n && Nat.leb n 90 then ascii_of_nat (n + 32) else c.

(** [str.lower()] *)
Fixpoint lower (s : string) : string :=
  match s with
  | EmptyString => EmptyString
  | String c r => String (lower_ascii c) (lower r)
  end.

(** ["=" * 60] *)
Fixpoint repeat_string (s : string) (n : nat) : string :=
  match n with
  | O => EmptyString
  | S k => s +:+ repeat_string s k
  end.

(** [sep.join(l)] *)
Definition join (sep : string) (l : list string) : string := String.concat sep l.

(** Shell-style matching of one path component against a pattern whose only
    special character is [*] (the three patterns of [clean_build] use
    nothing else). *)
Fixpoint fnmatch (pattern name : string) : bool :=
  match pattern with
  | EmptyString =>
      match name with
      | EmptyString => true
      | String _ _ => false
      end
  | String c pattern' =>
      if Ascii.eqb c "*" then
        (fix star (s : string) : bool :=
           fnmatch pattern' s ||
           match s with
           | EmptyString => false
           | String _ s' => star s'
           end) name
      else
        match name with
        | EmptyString => false
        | String d name' => Ascii.eqb c d && fnmatch pattern' name'
        end
  end.

(** ** The world of the script *)

(** What a directory entry is: a directory, a symbolic link to a directory,
    a regular file (or a link to one), or none of these (a FIFO, a socket,
    a dangling link). *)
Inductive kind :=
| Directory
| DirectoryLink
| RegularFile
| Special.

(** [Path.is_dir()] follows symbolic links. *)
Definition is_dir (entry : option kind) : bool :=
  match entry with
  | Some Directory | Some DirectoryLink => true
  | _ => false
  end.

(** [Path.is_file()] *)
Definition is_file (entry : option kind) : bool :=
  match entry with
  | Some RegularFile => true
  | _ => false
  end.

(** The part of the world that external commands can change. *)
Record host := Host {
  cwd : gmap string kind;      (* entries of the current directory *)
  modules : gset string        (* what [__import__] finds *)
}.

(** [subprocess.CompletedProcess] *)
Record completed := Completed {
  returncode : Z;
  stdout : string;
  stderr : string
}.

Inductive event :=
| Call (function : string)
| Output (text : string)
| Input (line : string)
| Rmtree (path : string)
| Unlink (path : string)
| Import (package : string)
| Run (cmd : string).

Record process := Process {
  argv : list string;          (* [sys.argv] *)
  stdin : list string;         (* lines not yet read from standard input *)
  sys : host;
  log : list event
}.

(** How a computation ends: with a value, through [sys.exit], or with an
    exception nobody caught. *)
Inductive result (A : Type) :=
| Val (a : A)
| Exit (code : Z)
| Raise (exception : string).
Arguments Val {A} a.
Arguments Exit {A} code.
Arguments Raise {A} exception.

(** The exit status the interpreter reports for [main]. *)
Definition exit_code {A} (r : result A) : Z :=
  match r with
  | Val _ => 0
  | Exit code => code
  | Raise _ => 1
  end.

Definition M (A : Type) : Type := process -> result A * process.

Definition ret {A} (a : A) : M A := fun p => (Val a, p).

Definition bind {A B} (m : M A) (k : A -> M B) : M B :=
  fun p =>
    match m p with
    | (Val a, p') => k a p'
    | (Exit code, p') => (Exit code, p')
    | (Raise e, p') => (Raise e, p')
    end.

Declare Scope io_scope.
Delimit Scope io_scope with io.
Notation "'do' x <- m ; k" := (bind m (fun x => k))
  (at level 10, x name, m at level 100, k at level 200) : io_scope.
Notation "m ;; k" := (bind m (fun _ => k))
  (at level 100, k at level 200, right associativity) : io_scope.
Local Open Scope io_scope.

Definition get : M process := fun p => (Val p, p).

Definition emit (e : event) : M unit :=
  fun p => (Val tt, Process (argv p) (stdin p) (sys p) (log p ++ [e])).

Definition set_host (h : host) : M unit :=
  fun p => (Val tt, Process (argv p) (stdin p) h (log p)).

(** [sys.exit(code)] *)
Definition sys_exit {A} (code : Z) : M A := fun p => (Exit code, p).

(** [raise exception], with nobody to catch it. *)
Definition raise {A} (exception : string) : M A := fun p => (Raise exception, p).

(** [print(text)]; also [print(text, end="")] and the prompt of
    [input(prompt)]: the log keeps the text, not the line terminator. *)
Definition print (text : string) : M unit := emit (Output text).

(** [input()]: the next line of standard input, [EOFError] at its end. *)
Definition input : M string :=
  fun p =>
    match stdin p with
    | [] => (Raise "EOFError", p)
    | line :: rest =>
        (Val line, Process (argv p) rest (sys p) (log p ++ [Input line]))
    end.

(** [for x in l: body(x)] *)
Fixpoint for_each {A} (l : list A) (body : A -> M unit) : M unit :=
  match l with
  | [] => ret tt
  | x :: l' => body x ;; for_each l' body
  end.

(** ** The script *)

Section BuildScript.

(** [os.scandir]: the names of the entries of a directory, in the order the
    operating system lists them. *)
Variable scandir : gmap string kind -> list string.

(** The entries the operating system refuses to remove, for want of a
    permission or because they are in use. *)
Variable denied : string -> bool.

(** [shutil.rmtree(path)]: removes a directory with all that is below it.
    On a symbolic link to a directory it raises [OSError] ("Cannot call
    rmtree on a symbolic link"); on anything else that is not a directory
    it raises [NotADirectoryError] or [FileNotFoundError], and on a
    directory it may not remove [PermissionError], which are [OSError]s
    too.  The log records the removals that happened. *)
Definition rmtree (path : string) : M unit :=
  do p <- get;
  match cwd (sys p) !! path with
  | Some Directory =>
      if denied path then raise "OSError"
      else
        set_host (Host (delete path (cwd (sys p))) (modules (sys p)));;
        emit (Rmtree path)
  | _ => raise "OSError"
  end.

(** [path.unlink()]: removes a file, a link or a special file; on a
    directory, a missing entry or an entry it may not remove it raises an
    [OSError]. *)
Definition unlink (path : string) : M unit :=
  do p <- get;
  match cwd (sys p) !! path with
  | Some Directory | None => raise "OSError"
  | Some _ =>
      if denied path then raise "OSError"
      else
        set_host (Host (delete path (cwd (sys p))) (modules (sys p)));;
        emit (Unlink path)
  end.

(** [Path(".").glob(pattern)]: the names of the entries that match. *)
Definition glob (pattern : string) (dir : gmap string kind) : list string :=
  filter (fun name => fnmatch pattern name = true) (scandir dir).

(** [subprocess.run(cmd, shell=True, capture_output=True, text=True)]: what
    the command answers and what it leaves of the host. *)
Variable shell : string -> host -> completed * host.

(** [sys.executable] *)
Variable executable : string.

(** [run_command]: [check=True] turns a non-zero return code into
    [CalledProcessError], caught here. *)
Definition run_command (cmd description : string) : M pyval :=
  print (nl +:+ "🔄 " +:+ description +:+ "...");;
  do p <- get;
  let (res, h) := shell cmd (sys p) in
  emit (Run cmd);;
  set_host h;;
  if Z.eqb (returncode res) 0 then
    print ("✅ " +:+ description +:+ " completed successfully");;
    (if String.eqb (stdout res) EmptyString then ret tt else print (stdout res));;
    ret (PyBool true)
  else
    print ("❌ " +:+ description +:+ " failed:");;
    print (stderr res);;
    ret (PyBool false).

Definition dirs_to_clean : list string := ["build"; "dist"; "*.egg-info"].

(** The body of the inner loop of [clean_build]. *)
Definition clean_path (path : string) : M unit :=
  do p <- get;
  if is_dir (cwd (sys p) !! path) then
    rmtree path;;
    print ("   Removed directory: " +:+ path)
  else if is_file (cwd (sys p) !! path) then
    unlink path;;
    print ("   Removed file: " +:+ path)
  else ret tt.

(** The body of the outer loop of [clean_build]. *)
Definition clean_pattern (pattern : string) : M unit :=
  do p <- get;
  for_each (glob pattern (cwd (sys p))) clean_path.

(** [clean_build] has no [return] statement: it hands back [None]. *)
Definition clean_build : M pyval :=
  emit (Call "clean_build");;
  print (nl +:+ "🧹 Cleaning previous build artifacts...");;
  for_each dirs_to_clean clean_pattern;;
  ret PyNone.

Definition required_packages : list string := ["build"; "twine"].

(** One turn of the loop of [check_requirements]: [__import__(package)]
    under [try]/[except ImportError], with the list of missing packages as
    the loop's accumulator. *)
Definition check_package_installed (missing : list string) (package : string)
  : M (list string) :=
  emit (Import package);;
  do p <- get;
  if bool_decide (package ∈ modules (sys p)) then
    print ("   ✅ " +:+ package +:+ " is installed");;
    ret missing
  else
    print ("   ❌ " +:+ package +:+ " is missing");;
    ret (missing ++ [package]).

Fixpoint for_acc {A B} (l : list A) (acc : B) (body : B -> A -> M B) : M B :=
  match l with
  | [] => ret acc
  | x :: l' => do acc' <- body acc x; for_acc l' acc' body
  end.

Definition pip_install (missing : list string) : string :=
  executable +:+ " -m pip install " +:+ join " " missing.

Definition check_requirements : M pyval :=
  emit (Call "check_requirements");;
  print (nl +:+ "📋 Checking build requirements...");;
  do missing_packages <- for_acc required_packages [] check_package_installed;
  match missing_packages with
  | [] => ret (PyBool true)
  | _ :: _ =>
      print (nl +:+ "📦 Installing missing packages: " +:+ join ", " missing_packages);;
      do ok <- run_command (pip_install missing_packages) "Installing build dependencies";
      if negb (truthy ok) then ret (PyBool false) else ret (PyBool true)
  end.

Definition build_package : M pyval :=
  emit (Call "build_package");;
  run_command (executable +:+ " -m build") "Building package".

Definition check_package : M pyval :=
  emit (Call "check_package");;
  run_command "twine check dist/*" "Checking package".

Definition test_pypi_prompt : string :=
  nl +:+ "⚠️  This will upload to Test PyPI. Continue? (y/N): ".

Definition pypi_prompt : string :=
  nl +:+ "⚠️  This will upload to PyPI. This action cannot be undone! Continue? (y/N): ".

Definition upload_to_test_pypi : M pyval :=
  emit (Call "upload_to_test_pypi");;
  print test_pypi_prompt;;
  do answer <- input;
  if negb (String.eqb (lower answer) "y") then
    print "Upload cancelled.";;
    ret (PyBool true)
  else
    run_command "twine upload --repository testpypi dist/*" "Uploading to Test PyPI".

Definition upload_to_pypi : M pyval :=
  emit (Call "upload_to_pypi");;
  print pypi_prompt;;
  do answer <- input;
  if negb (String.eqb (lower answer) "y") then
    print "Upload cancelled.";;
    ret (PyBool true)
  else
    run_command "twine upload dist/*" "Uploading to PyPI".

(** Lines 100-112 of [main]: the banner, then the action from the command
    line or, without one, from a prompt that defaults to "build". *)
Definition select_action : M string :=
  print "🏠 Home Assistant Desktop Remote Control - Build Script";;
  print (repeat_string "=" 60);;
  do p <- get;
  match argv p with
  | _ :: arg :: _ => ret (lower arg)
  | _ =>
      print (nl +:+ "Available actions:");;
      print "  build       - Clean, build, and check package";;
      print "  test-upload - Upload to Test PyPI";;
      print "  upload      - Upload to PyPI";;
      print "  clean       - Clean build artifacts only";;
      print (nl +:+ "Usage: python build.py [action]");;
      print (nl +:+ "Enter action (or press Enter for 'build'): ");;
      do answer <- input;
      ret (if String.eqb (lower answer) EmptyString then "build" else lower answer)
  end.

(** The list [steps] of [main]. *)
Definition steps : list (M pyval * string) :=
  [ (clean_build, "Clean build artifacts");
    (check_requirements, "Check requirements");
    (build_package, "Build package");
    (check_package, "Check package") ].

(** The step loop of [main]. *)
Fixpoint run_steps (l : list (M pyval * string)) : M unit :=
  match l with
  | [] => ret tt
  | (step_func, step_name) :: l' =>
      do outcome <- step_func;
      if negb (truthy outcome) then
        print (nl +:+ "❌ Build failed at step: " +:+ step_name);;
        sys_exit 1
      else run_steps l'
  end.

(** What [main] does once the step loop is behind it (lines 133-139 and
    145): the results of the upload functions are not looked at. *)
Definition after_steps (action : string) : M unit :=
  print (nl +:+ "✅ Package built successfully!");;
  (if String.eqb action "test-upload" then upload_to_test_pypi;; ret tt
   else if String.eqb action "upload" then upload_to_pypi;; ret tt
   else ret tt);;
  print (nl +:+ "🎉 Build process completed!").

Definition build_actions : list string := ["build"; "test-upload"; "upload"].

(** [main].  The last [print] of the source stands after the [if]/[else];
    the "clean" branch returns before it and the [else] branch leaves
    through [sys.exit(1)], so it belongs to the build branch alone. *)
Definition main : M unit :=
  do action <- select_action;
  if String.eqb action "clean" then
    clean_build;;
    print (nl +:+ "✅ Clean completed!")
  else if bool_decide (action ∈ build_actions) then
    run_steps steps;;
    after_steps action
  else
    print ("❌ Unknown action: " +:+ action);;
    sys_exit 1.

End BuildScript.

(** ** Reading the log *)

(** The step functions entered, in order. *)
Definition calls (l : list event) : list string :=
  omap (fun e => match e with Call f => Some f | _ => None end) l.

(** The commands handed to the shell, in order. *)
Definition commands (l : list event) : list string :=
  omap (fun e => match e with Run cmd => Some cmd | _ => None end) l.

(** The directory entries removed, in order. *)
Definition removed (l : list event) : list string :=
  omap (fun e => match e with Rmtree path | Unlink path => Some path | _ => None end) l.

(** Events of a cleaning loop: removals and their reports. *)
Definition cleaning_event (e : event) : Prop :=
  match e with
  | Rmtree _ | Unlink _ | Output _ => True
  | _ => False
  end.

(** [clean_path] sets out to remove an entry when it is a directory or a
    regular file. *)
Definition removable (entry : option kind) : bool :=
  match entry with
  | Some Directory | Some RegularFile => true
  | _ => false
  end.

(** [clean_path] raises on the entry: it is a link to a directory, which
    [rmtree] refuses, or a directory or file the system does not let go. *)
Definition stuck (denied : string -> bool) (dir : gmap string kind) (name : string)
  : bool :=
  match dir !! name with
  | Some DirectoryLink => true
  | Some Directory | Some RegularFile => denied name
  | _ => false
  end.

Definition cleaning_banner : list event :=
  [Call "clean_build"; Output (nl +:+ "🧹 Cleaning previous build artifacts...")].

(** ** What cleaning is about *)

(** Some pattern of the list matches the name. *)
Definition matches_any (patterns : list string) (name : string) : bool :=
  existsb (fun pattern => fnmatch pattern name) patterns.

(** The pattern has no [*]: it matches by equality. *)
Fixpoint star_free (pattern : string) : bool :=
  match pattern with
  | EmptyString => true
  | String c pattern' => negb (Ascii.eqb c "*") && star_free pattern'
  end.

(** The names [clean_build] looks for. *)
Definition artifact_name (name : string) : Prop :=
  name = "build" \/ name = "dist" \/ exists stem, name = stem +:+ ".egg-info".

(** A cleaning event fits the directory it was run on: [rmtree] on a
    directory, [unlink] on a regular file. *)
Definition removal_of (dir : gmap string kind) (e : event) : Prop :=
  match e with
  | Rmtree path => dir !! path = Some Directory
  | Unlink path => dir !! path = Some RegularFile
  | Output _ => True
  | _ => False
  end.

(** The directory listing gives every entry once. *)
Definition lists_entries (scandir : gmap string kind -> list string) : Prop :=
  forall dir, scandir dir ≡ₚ (map_to_list dir).*1.

(** An artifact of the directory cannot be removed. *)
Definition stuck_artifact (denied : string -> bool) (dir : gmap string kind) : Prop :=
  exists name, artifact_name name /\ stuck denied dir name = true.

(** What a cleaning run over the names in [target] makes of a directory:
    an entry is as it was or, when it was a targeted directory or file that
    could be removed, gone; the removals logged are those that happened,
    each once, each followed by its report, [rmtree] on directories and
    [unlink] on files. *)
Definition swept (denied : string -> bool) (target : string -> Prop)
  (before after : gmap string kind) (evs : list event) : Prop :=
  (forall n, after !! n = before !! n \/
             (target n /\ removable (before !! n) = true /\
              stuck denied before n = false /\ after !! n = None)) /\
  (forall n, n ∈ removed evs <-> removable (before !! n) = true /\ after !! n = None) /\
  NoDup (removed evs) /\
  Forall (removal_of before) evs /\
  List.length evs = 2 * List.length (removed evs).

(** A cleaning run that returned left no targeted directory or file, and
    met no entry it could not remove. *)
Definition thorough (denied : string -> bool) (target : string -> Prop)
  (before after : gmap string kind) (ok : bool) : Prop :=
  ok = true ->
  (forall n, target n -> removable (before !! n) = true -> after !! n = None) /\
  (forall n, target n -> stuck denied before n = false).

(** The contract of a cleaning computation: it ends normally or with
    [OSError], touches only the directory and the log, and cleans as
    [swept] and [thorough] say; it ends normally when no targeted entry is
    stuck. *)
Definition cleans (denied : string -> bool) (m : M unit) (target : string -> Prop)
  (complete : Prop) : Prop :=
  forall p, exists ok dir evs,
    m p = ((if ok : bool then Val tt else Raise "OSError"),
           Process (argv p) (stdin p) (Host dir (modules (sys p))) (log p ++ evs)) /\
    swept denied target (cwd (sys p)) dir evs /\
    ((forall n, target n -> stuck denied (cwd (sys p)) n = false) -> ok = true) /\
    (complete -> thorough denied target (cwd (sys p)) dir ok).

(** The events a computation appended to the log: those of [after] beyond
    the log of [before]. *)
Definition appended (before after : process) : list event :=
  drop (List.length (log before)) (log after).

(** Runs the state-passing primitives of a goal. *)
Ltac run :=
  cbv beta iota delta [bind ret get emit print set_host sys_exit raise];
  simpl.

(** ** Sample environments *)

(** A shell on which every command succeeds, prints nothing and leaves the
    host as it was. *)
Definition obliging_shell (cmd : string) (h : host) : completed * host :=
  (Completed 0 EmptyString EmptyString, h).

(** A shell on which exactly the command [bad] fails. *)
Definition refusing_shell (bad cmd : string) (h : host) : completed * host :=
  if String.eqb cmd bad
  then (Completed 1 EmptyString "HTTPError: 403 Forbidden", h)
  else (Completed 0 EmptyString EmptyString, h).

(** A checkout after an earlier build, with both tools installed. *)
Definition built_tree : gmap string kind :=
  list_to_map [ ("build", Directory); ("dist", Directory);
                ("ha_desktop_remote.egg-info", Directory);
                ("stale.egg-info", RegularFile);
                ("pipe.egg-info", Special);
                ("pyproject.toml", RegularFile); ("src", Directory) ].


(** A directory listing in the order of the keys of the map. *)
Definition key_order (dir : gmap string kind) : list string := (map_to_list dir).*1.

(** A system that lets every directory and file be removed. *)
Definition nothing_denied (path : string) : bool := false.

(** A system that does not let [dist] be removed. *)
Definition dist_denied (path : string) : bool := String.eqb path "dist".

Definition tools : gset string := {[ "build"; "twine" ]}.

Definition invocation (args input_lines : list string) (dir : gmap string kind)
  (mods : gset string) : process :=
  Process ("build.py" :: args) input_lines (Host dir mods) [].

(** [python build.py build] in the checkout. *)
Definition build_run : process := invocation ["build"] [] built_tree tools.

(** [python build.py test-upload], answering "y" at the prompt. *)
Definition test_upload_run : process := invocation ["test-upload"] ["y"] ∅ tools.

(** [python build.py upload], answering "Yes" at the prompt. *)
Definition upload_run : process := invocation ["upload"] ["Yes"] ∅ tools.

(** [python build.py deploy] *)
Definition deploy_run : process := invocation ["deploy"] [] built_tree tools.

(** [python build.py], typing "CLEAN" at the prompt. *)
Definition clean_run : process := invocation [] ["CLEAN"] built_tree tools.

(** A checkout without artifacts. *)
Definition fresh_tree : gmap string kind :=
  list_to_map [ ("pyproject.toml", RegularFile); ("src", Directory) ].


(** [python build.py build] in that directory. *)
Definition fresh_build_run : process := invocation ["build"] [] fresh_tree tools.

(** A shell on which the upload to the test index fails. *)
Definition failing_upload_shell : string -> host -> completed * host :=
  refusing_shell "twine upload --repository testpypi dist/*".

(** A shell on which the build command fails. *)
Definition failing_build_shell : string -> host -> completed * host :=
  refusing_shell "python3 -m build".


(** [python build.py] with standard input at its end. *)
Definition silent_run : process := invocation [] [] built_tree tools.

(** ** Properties *)

(** *** Strings *)

Lemma lower_ascii_y (c : ascii) :
  lower_ascii c = "y"%char <-> c = "y"%char \/ c = "Y"%char.
Proof.
  split.
  - destruct c as [[] [] [] [] [] [] [] []]; vm_compute; intros H;
      try discriminate H; auto.
  - intros [-> | ->]; reflexivity.
Qed.

Lemma lower_y (s : string) : lower s = "y" <-> s = "y" \/ s = "Y".
Proof.
  split.
  - destruct s as [|c [|d s]]; simpl; intros H; try discriminate H.
    injection H as H. apply lower_ascii_y in H as [-> | ->]; auto.
  - intros [-> | ->]; reflexivity.
Qed.

(** *** The log readers distribute over the events a run appends *)

Lemma calls_app (l k : list event) : calls (l ++ k) = calls l ++ calls k.
Proof. apply omap_app. Qed.

Lemma commands_app (l k : list event) : commands (l ++ k) = commands l ++ commands k.
Proof. apply omap_app. Qed.

Lemma removed_app (l k : list event) : removed (l ++ k) = removed l ++ removed k.
Proof. apply omap_app. Qed.

(** *** The patterns of [clean_build] *)

Lemma fnmatch_star_free (pattern name : string) :
  star_free pattern = true -> (fnmatch pattern name = true <-> name = pattern).
Proof.
  revert name. induction pattern as [|c pattern IH]; intros name Hfree.
  - destruct name; simpl; split; congruence.
  - simpl in Hfree. apply andb_true_iff in Hfree as [Hc Hfree].
    apply negb_true_iff in Hc. simpl. rewrite Hc.
    destruct name as [|d name]; [split; congruence|].
    rewrite andb_true_iff, Ascii.eqb_eq, (IH name Hfree).
    split; [intros [-> ->]; reflexivity|intros H; injection H as -> ->; auto].
Qed.

Lemma fnmatch_star_prefix (suffix name : string) :
  star_free suffix = true ->
  (fnmatch (String "*" suffix) name = true <-> exists stem, name = stem +:+ suffix).
Proof.
  intros Hfree. cbn [fnmatch]. rewrite Ascii.eqb_refl.
  induction name as [|d name IH].
  - rewrite orb_false_r, (fnmatch_star_free _ _ Hfree). split.
    + intros H. exists EmptyString. exact H.
    + intros [[|c stem] H]; [exact H|discriminate H].
  - rewrite orb_true_iff, (fnmatch_star_free _ _ Hfree), IH. split.
    + intros [H | [stem H]].
      * exists EmptyString. exact H.
      * exists (String d stem). simpl. by rewrite H.
    + intros [[|c stem] H].
      * left. exact H.
      * right. simpl in H. injection H as -> ->. by exists stem.
Qed.

Lemma matches_any_artifact (name : string) :
  matches_any dirs_to_clean name = true <-> artifact_name name.
Proof.
  unfold matches_any, dirs_to_clean, artifact_name. cbn [existsb].
  rewrite orb_false_r, !orb_true_iff.
  rewrite (fnmatch_star_free "build"), (fnmatch_star_free "dist") by reflexivity.
  rewrite (fnmatch_star_prefix ".egg-info") by reflexivity.
  tauto.
Qed.

(** *** What a cleaning run does to a directory *)

Lemma removable_is_Some (entry : option kind) :
  removable entry = true -> is_Some entry.
Proof. destruct entry as [[]|]; simpl; eauto; discriminate. Qed.

Lemma removal_is_cleaning (dir : gmap string kind) (evs : list event) :
  Forall (removal_of dir) evs -> Forall cleaning_event evs.
Proof.
  intros Hall. eapply Forall_impl; [exact Hall|]. intros []; simpl; done.
Qed.

Lemma cleaning_events_calls (evs : list event) :
  Forall cleaning_event evs -> calls evs = [] /\ commands evs = [].
Proof.
  induction 1 as [|e evs He _ [IHc IHr]]; [done|].
  destruct e; simpl in *; try done.
Qed.

Lemma removal_of_mono (d0 d1 : gmap string kind) (evs : list event) :
  (forall n, d1 !! n = None \/ d1 !! n = d0 !! n) ->
  Forall (removal_of d1) evs -> Forall (removal_of d0) evs.
Proof.
  intros Hsub Hall. eapply Forall_impl; [exact Hall|].
  intros [] H; simpl in *; try done.
  - destruct (Hsub path) as [Hn|He]; congruence.
  - destruct (Hsub path) as [Hn|He]; congruence.
Qed.

Section Sweeping.

Variable denied : string -> bool.

Lemma stuck_is_Some (dir : gmap string kind) (n : string) :
  stuck denied dir n = true -> is_Some (dir !! n).
Proof. unfold stuck. destruct (dir !! n); [eauto|discriminate]. Qed.

Lemma stuck_ext (d0 d1 : gmap string kind) (n : string) :
  d1 !! n = d0 !! n -> stuck denied d1 n = stuck denied d0 n.
Proof. unfold stuck. by intros ->. Qed.

Lemma swept_quiet (target : string -> Prop) (d0 d : gmap string kind) (evs : list event) :
  swept denied target d0 d evs -> calls evs = [] /\ commands evs = [].
Proof.
  intros (_ & _ & _ & Hk & _).
  by apply cleaning_events_calls, (removal_is_cleaning d0).
Qed.

Lemma swept_nil (target : string -> Prop) (d : gmap string kind) :
  swept denied target d d [].
Proof.
  split; [by left|]. split; [|split; [constructor|split; [constructor|done]]].
  intros n. simpl. rewrite elem_of_nil. split; [done|].
  intros [Hr Hn]. rewrite Hn in Hr. discriminate Hr.
Qed.

Lemma swept_weaken (T T' : string -> Prop) (d0 d : gmap string kind) (evs : list event) :
  (forall n, T n -> T' n) -> swept denied T d0 d evs -> swept denied T' d0 d evs.
Proof.
  intros Hsub (H1 & Hrest). split; [|exact Hrest].
  intros n. destruct (H1 n) as [H | (Ht & H)]; [by left|right; auto].
Qed.

(** Entries only disappear. *)
Lemma swept_lookup (T : string -> Prop) (d0 d : gmap string kind) (evs : list event)
  (n : string) :
  swept denied T d0 d evs -> d !! n = None \/ d !! n = d0 !! n.
Proof. intros (H1 & _). destruct (H1 n) as [H | (_ & _ & _ & H)]; auto. Qed.

(** A cleaning run leaves the way it found them the entries it cannot
    remove, and makes no entry stuck. *)
Lemma swept_stuck (T : string -> Prop) (d0 d : gmap string kind) (evs : list event)
  (n : string) :
  swept denied T d0 d evs -> stuck denied d n = stuck denied d0 n.
Proof.
  intros (H1 & _). destruct (H1 n) as [H | (_ & _ & Hs & Hn)]; [by apply stuck_ext|].
  rewrite Hs. unfold stuck. by rewrite Hn.
Qed.

(** Two cleaning runs in a row are one. *)
Lemma swept_seq (T : string -> Prop) (d0 d1 d2 : gmap string kind) (e1 e2 : list event) :
  swept denied T d0 d1 e1 -> swept denied T d1 d2 e2 -> swept denied T d0 d2 (e1 ++ e2).
Proof.
  intros S1 S2.
  pose proof (fun n => swept_lookup T d0 d1 e1 n S1) as Hsub.
  pose proof (fun n => swept_stuck T d0 d1 e1 n S1) as Hstuck.
  destruct S1 as (A1 & M1 & N1 & K1 & L1), S2 as (A2 & M2 & N2 & K2 & L2).
  split; [|split; [|split; [|split]]].
  - intros n. destruct (A1 n) as [E1 | (Ht & Hr & Hs & Hn)].
    + destruct (A2 n) as [E2 | (Ht & Hr & Hs & Hn)].
      * left. congruence.
      * right. rewrite E1 in Hr. rewrite Hstuck in Hs. auto.
    + right. repeat (split; [done|]).
      destruct (A2 n) as [-> | (_ & _ & _ & H)]; done.
  - intros n. rewrite removed_app, elem_of_app, M1, M2. split.
    + intros [[Hr Hn] | [Hr Hn]].
      * split; [done|]. destruct (A2 n) as [-> | (_ & _ & _ & H)]; done.
      * destruct (Hsub n) as [H | H]; [rewrite H in Hr; discriminate Hr|].
        by rewrite <- H.
    + intros [Hr Hn]. destruct (d1 !! n) as [k|] eqn:Hk; [|by left].
      right. destruct (Hsub n) as [H | H]; [congruence|]. by rewrite <- Hk, H.
  - rewrite removed_app. apply NoDup_app. split; [done|]. split; [|done].
    intros n [_ Hn]%M1 [Hr _]%M2. rewrite Hn in Hr. discriminate Hr.
  - apply Forall_app. split; [done|]. by apply (removal_of_mono d0 d1).
  - rewrite removed_app, !length_app. lia.
Qed.


(** *** Cleaning computations compose *)

Lemma cleans_ret (complete : Prop) : cleans denied (ret tt) (fun _ => False) complete.
Proof.
  intros p. exists true, (cwd (sys p)), [].
  destruct p as [a i [d m] l]. simpl. rewrite app_nil_r.
  split; [reflexivity|]. split; [apply swept_nil|]. split; [done|].
  intros _ _. split; intros n [].
Qed.

Lemma cleans_seq (m1 m2 : M unit) (T1 T2 T : string -> Prop) (complete : Prop) :
  cleans denied m1 T1 complete -> cleans denied m2 T2 complete ->
  (forall n, T n <-> T1 n \/ T2 n) ->
  cleans denied (m1;; m2) T complete.
Proof.
  intros C1 C2 HT p.
  destruct (C1 p) as (ok1 & d1 & e1 & H1 & S1 & R1 & F1).
  unfold bind. rewrite H1.
  assert (S1' : swept denied T (cwd (sys p)) d1 e1).
  { eapply swept_weaken; [|exact S1]. intros n Hn. apply HT. by left. }
  destruct ok1.
  - destruct (C2 (Process (argv p) (stdin p) (Host d1 (modules (sys p))) (log p ++ e1)))
      as (ok2 & d2 & e2 & H2 & S2 & R2 & F2).
    cbn [argv stdin sys cwd modules log] in H2, S2, R2, F2.
    exists ok2, d2, (e1 ++ e2). rewrite H2, <- app_assoc.
    split; [reflexivity|].
    assert (S2' : swept denied T d1 d2 e2).
    { eapply swept_weaken; [|exact S2]. intros n Hn. apply HT. by right. }
    split; [by apply (swept_seq T _ d1)|]. split.
    + intros Hfree. apply R2. intros n Hn.
      rewrite (swept_stuck T1 _ _ _ n S1). apply Hfree, HT. by right.
    + intros Hc Hok. destruct (F1 Hc eq_refl) as [G1 L1].
      destruct (F2 Hc Hok) as [G2 L2]. split.
      * intros n [Hn | Hn]%HT Hr.
        -- destruct (swept_lookup T2 d1 d2 e2 n S2) as [H | H]; [done|].
           rewrite H. by apply G1.
        -- destruct (swept_lookup T1 _ d1 e1 n S1) as [H | H].
           ++ destruct (swept_lookup T2 d1 d2 e2 n S2) as [H' | H']; congruence.
           ++ apply G2; [done|]. by rewrite H.
      * intros n [Hn | Hn]%HT; [by apply (L1 n)|].
        rewrite <- (swept_stuck T1 _ _ _ n S1). by apply L2.
  - exists false, d1, e1. split; [reflexivity|]. split; [exact S1'|]. split.
    + intros Hfree. apply R1. intros n Hn. apply Hfree, HT. by left.
    + intros _ Hok. discriminate Hok.
Qed.

Lemma cleans_target (m : M unit) (T T' : string -> Prop) (complete : Prop) :
  cleans denied m T complete -> (forall n, T n <-> T' n) -> cleans denied m T' complete.
Proof.
  intros C HT p. destruct (C p) as (ok & d & evs & H & S & R & F).
  exists ok, d, evs. split; [exact H|]. split.
  - eapply swept_weaken; [|exact S]. intros n. apply HT.
  - split.
    + intros Hfree. apply R. intros n Hn. by apply Hfree, HT.
    + intros Hc Hok. destruct (F Hc Hok) as [G L].
      split; intros n Hn%HT; [by apply G|by apply L].
Qed.

(** *** The cleaning loops *)

Lemma clean_path_cleans (path : string) (complete : Prop) :
  cleans denied (clean_path denied path) (fun n => n = path) complete.
Proof.
  assert (Hgone : forall (d : gmap string kind) (e : event) (note : string),
    removable (d !! path) = true -> denied path = false ->
    removal_of d e -> removed [e] = [path] ->
    swept denied (fun n => n = path) d (delete path d) [e; Output note] /\
    thorough denied (fun n => n = path) d (delete path d) true).
  { intros d e note Hr Hd He Hrem.
    assert (Hrem2 : removed [e; Output note] = [path]).
    { change [e; Output note] with ([e] ++ [Output note]).
      by rewrite removed_app, Hrem. }
    split.
    - split; [|split; [|split; [|split]]].
      + intros n. destruct (decide (n = path)) as [->|Hne].
        * right. rewrite lookup_delete_eq. repeat (split; [done|]).
          split; [|done]. unfold stuck.
          destruct (d !! path) as [[]|]; try done; discriminate Hr.
        * left. by rewrite lookup_delete_ne.
      + intros n. rewrite Hrem2, list_elem_of_singleton. split.
        * intros ->. by rewrite lookup_delete_eq.
        * intros [Hr' Hn]. destruct (decide (n = path)) as [->|Hne]; [done|].
          rewrite lookup_delete_ne in Hn by done. rewrite Hn in Hr'. discriminate Hr'.
      + rewrite Hrem2. apply NoDup_singleton.
      + by repeat constructor.
      + by rewrite Hrem2.
    - intros _. split.
      + intros n -> _. apply lookup_delete_eq.
      + intros n ->. unfold stuck.
        destruct (d !! path) as [[]|]; try done; discriminate Hr. }
  assert (Hstay : forall (d : gmap string kind),
    stuck denied d path = true ->
    swept denied (fun n => n = path) d d [] /\
    ((forall n, n = path -> stuck denied d n = false) -> false = true) /\
    (complete -> thorough denied (fun n => n = path) d d false)).
  { intros d Hs. split; [apply swept_nil|]. split.
    - intros Hfree. by rewrite (Hfree path eq_refl) in Hs.
    - intros _ Hok. discriminate Hok. }
  assert (Hskip : forall (d : gmap string kind),
    removable (d !! path) = false -> stuck denied d path = false ->
    swept denied (fun n => n = path) d d [] /\
    ((forall n, n = path -> stuck denied d n = false) -> true = true) /\
    (complete -> thorough denied (fun n => n = path) d d true)).
  { intros d Hr Hs. split; [apply swept_nil|]. split; [done|].
    intros _ _. split.
    - intros n -> Hr'. rewrite Hr in Hr'. discriminate Hr'.
    - by intros n ->. }
  intros [a i [d m] l]. unfold clean_path, rmtree, unlink. run.
  destruct (d !! path) as [[]|] eqn:Hpath; simpl; rewrite ?Hpath; cbn.
  - destruct (denied path) eqn:Hd; cbn.
    + exists false, d, []. rewrite app_nil_r. split; [reflexivity|].
      apply Hstay. unfold stuck. by rewrite Hpath.
    + exists true, (delete path d),
        [Rmtree path; Output ("   Removed directory: " +:+ path)].
      rewrite <- app_assoc. split; [reflexivity|].
      destruct (Hgone d (Rmtree path) ("   Removed directory: " +:+ path)) as [S F];
        rewrite ?Hpath; try done.
  - exists false, d, []. rewrite app_nil_r. split; [reflexivity|].
    apply Hstay. unfold stuck. by rewrite Hpath.
  - destruct (denied path) eqn:Hd; cbn.
    + exists false, d, []. rewrite app_nil_r. split; [reflexivity|].
      apply Hstay. unfold stuck. by rewrite Hpath.
    + exists true, (delete path d), [Unlink path; Output ("   Removed file: " +:+ path)].
      rewrite <- app_assoc. split; [reflexivity|].
      destruct (Hgone d (Unlink path) ("   Removed file: " +:+ path)) as [S F];
        rewrite ?Hpath; try done.
  - exists true, d, []. rewrite app_nil_r. split; [reflexivity|].
    apply Hskip; [by rewrite Hpath|]. unfold stuck. by rewrite Hpath.
  - exists true, d, []. rewrite app_nil_r. split; [reflexivity|].
    apply Hskip; [by rewrite Hpath|]. unfold stuck. by rewrite Hpath.
Qed.

Lemma for_each_clean_path_cleans (paths : list string) (complete : Prop) :
  cleans denied (for_each paths (clean_path denied)) (fun n => n ∈ paths) complete.
Proof.
  induction paths as [|path paths IH]; simpl.
  - eapply cleans_target; [apply cleans_ret|]. intros n. by rewrite elem_of_nil.
  - eapply cleans_seq; [apply clean_path_cleans|exact IH|].
    intros n. apply elem_of_cons.
Qed.

Variable scandir : gmap string kind -> list string.

Lemma scandir_complete (dir : gmap string kind) (n : string) :
  lists_entries scandir -> is_Some (dir !! n) -> n ∈ scandir dir.
Proof.
  intros Hls [k Hk]. rewrite (Hls dir). apply list_elem_of_fmap.
  exists (n, k). split; [done|]. by apply elem_of_map_to_list.
Qed.

Lemma clean_pattern_cleans (pattern : string) :
  cleans denied (clean_pattern scandir denied pattern) (fun n => fnmatch pattern n = true)
         (lists_entries scandir).
Proof.
  intros p. unfold clean_pattern. cbv beta iota delta [bind get].
  destruct (for_each_clean_path_cleans (glob scandir pattern (cwd (sys p))) True p)
    as (ok & d & evs & H & S & R & F).
  assert (Hglob : forall n, n ∈ glob scandir pattern (cwd (sys p)) -> fnmatch pattern n = true).
  { intros n Hn. unfold glob in Hn. by apply list_elem_of_filter in Hn as [Hn _]. }
  exists ok, d, evs. split; [exact H|]. split; [|split].
  - eapply swept_weaken; [|exact S]. exact Hglob.
  - intros Hfree. apply R. intros n Hn. by apply Hfree, Hglob.
  - intros Hls Hok. destruct (F I Hok) as [G L].
    assert (Hin : forall n, fnmatch pattern n = true -> is_Some (cwd (sys p) !! n) ->
                            n ∈ glob scandir pattern (cwd (sys p))).
    { intros n Hm Hs. unfold glob. apply list_elem_of_filter. split; [done|].
      by apply scandir_complete. }
    split.
    + intros n Hm Hr. apply G; [|done]. apply Hin; [done|]. by apply removable_is_Some.
    + intros n Hm. destruct (stuck denied (cwd (sys p)) n) eqn:Hs; [|reflexivity].
      rewrite <- Hs. apply L, Hin; [done|]. by apply stuck_is_Some.
Qed.

Lemma for_each_clean_pattern_cleans (patterns : list string) :
  cleans denied (for_each patterns (clean_pattern scandir denied))
         (fun n => matches_any patterns n = true) (lists_entries scandir).
Proof.
  induction patterns as [|pattern patterns IH]; simpl.
  - eapply cleans_target; [apply cleans_ret|]. intros n. simpl. split; [done|discriminate].
  - eapply cleans_seq; [apply clean_pattern_cleans|exact IH|].
    intros n. unfold matches_any. simpl. apply orb_true_iff.
Qed.

(** [clean_build] ends by handing back [None] or with the [OSError] of
    [rmtree] or [unlink]; either way it has only removed artifacts. *)
Lemma clean_build_spec (p : process) :
  exists ok dir evs,
    clean_build scandir denied p
    = ((if ok : bool then Val PyNone else Raise "OSError"),
       Process (argv p) (stdin p) (Host dir (modules (sys p)))
               (log p ++ cleaning_banner ++ evs)) /\
    swept denied artifact_name (cwd (sys p)) dir evs /\
    ((forall n, artifact_name n -> stuck denied (cwd (sys p)) n = false) -> ok = true) /\
    (lists_entries scandir -> thorough denied artifact_name (cwd (sys p)) dir ok).
Proof.
  pose proof (cleans_target _ _ artifact_name _
                (for_each_clean_pattern_cleans dirs_to_clean) matches_any_artifact) as C.
  destruct (C (Process (argv p) (stdin p) (sys p) (log p ++ cleaning_banner)))
    as (ok & d & evs & H & S & R & F).
  cbn [argv stdin sys log] in H, S, R, F.
  exists ok, d, evs. split; [|done].
  unfold clean_build. cbv beta iota delta [bind emit print ret].
  cbn [argv stdin sys log]. unfold cleaning_banner in H.
  rewrite <- !app_assoc in *. cbn [app] in *. rewrite H.
  destruct ok; reflexivity.
Qed.


Lemma no_stuck_artifact (dir : gmap string kind) :
  ~ stuck_artifact denied dir ->
  forall n, artifact_name n -> stuck denied dir n = false.
Proof.
  intros Hno n Hn. destruct (stuck denied dir n) eqn:Hs; [|reflexivity].
  destruct Hno. by exists n.
Qed.

End Sweeping.

(** *** The events a run appended *)

Lemma appended_app (p q : process) (evs : list event) :
  log q = log p ++ evs -> appended p q = evs.
Proof. intros H. unfold appended. rewrite H. apply drop_app_length. Qed.


(** *** Lowercasing twice *)

Lemma lower_ascii_idempotent (c : ascii) : lower_ascii (lower_ascii c) = lower_ascii c.
Proof. destruct c as [[] [] [] [] [] [] [] []]; reflexivity. Qed.

Lemma lower_idempotent (s : string) : lower (lower s) = lower s.
Proof.
  induction s as [|c s IH]; [reflexivity|].
  simpl. by rewrite lower_ascii_idempotent, IH.
Qed.

Lemma default_action_lowercase (line : string) :
  let a := if String.eqb (lower line) EmptyString then "build" else lower line in
  lower a = a /\ a <> EmptyString.
Proof.
  simpl. destruct (String.eqb (lower line) EmptyString) eqn:He.
  - split; [reflexivity|discriminate].
  - split; [apply lower_idempotent|by apply String.eqb_neq].
Qed.

(** *** Choosing the action, case by case *)

Lemma select_action_cases (q : process) :
  exists evs,
    calls evs = [] /\ commands evs = [] /\ removed evs = [] /\
    select_action q =
      match argv q with
      | _ :: arg :: _ =>
          (Val (lower arg), Process (argv q) (stdin q) (sys q) (log q ++ evs))
      | _ =>
          match stdin q with
          | [] => (Raise "EOFError", Process (argv q) [] (sys q) (log q ++ evs))
          | line :: rest =>
              (Val (if String.eqb (lower line) EmptyString then "build" else lower line),
               Process (argv q) rest (sys q) (log q ++ evs))
          end
      end.
Proof.
  unfold select_action, input. run.
  destruct (argv q) as [|script [|arg args]] eqn:Ha; run;
    try destruct (stdin q) as [|line rest] eqn:Hin; simpl;
    rewrite <- ?app_assoc; simpl;
    eexists; (repeat split; [..|reflexivity]); reflexivity.
Qed.

(** *** External commands and the upload prompts *)

Section Pipeline.

Variable scandir : gmap string kind -> list string.
Variable denied : string -> bool.
Variable shell : string -> host -> completed * host.
Variable executable : string.

(** [run_command] hands exactly [cmd] to the shell and reports whether it
    returned 0; it never exits and never raises. *)
Lemma run_command_spec (cmd description : string) (p : process) :
  exists evs,
    run_command shell cmd description p =
      (Val (PyBool (returncode (shell cmd (sys p)).1 =? 0)%Z),
       Process (argv p) (stdin p) (shell cmd (sys p)).2 (log p ++ evs)) /\
    calls evs = [] /\ commands evs = [cmd] /\ removed evs = [].
Proof.
  unfold run_command. run.
  destruct (shell cmd (sys p)) as [res h]. run.
  destruct (returncode res =? 0)%Z; run;
    [destruct (String.eqb (stdout res) EmptyString); run|];
    rewrite <- ?app_assoc; simpl; eexists; (split; [reflexivity|done]).
Qed.

(** What the two upload functions do with the line they read. *)
Lemma upload_to_test_pypi_declined (p : process) (line : string) (rest : list string) :
  stdin p = line :: rest -> lower line <> "y" ->
  upload_to_test_pypi shell p =
    (Val (PyBool true),
     Process (argv p) rest (sys p)
       (log p ++ [Call "upload_to_test_pypi"; Output test_pypi_prompt;
                  Input line; Output "Upload cancelled."])).
Proof.
  intros Hin Hno. unfold upload_to_test_pypi, input. run. rewrite Hin. run.
  apply String.eqb_neq in Hno. rewrite Hno. run.
  by rewrite <- ?app_assoc.
Qed.

Lemma upload_to_pypi_declined (p : process) (line : string) (rest : list string) :
  stdin p = line :: rest -> lower line <> "y" ->
  upload_to_pypi shell p =
    (Val (PyBool true),
     Process (argv p) rest (sys p)
       (log p ++ [Call "upload_to_pypi"; Output pypi_prompt;
                  Input line; Output "Upload cancelled."])).
Proof.
  intros Hin Hno. unfold upload_to_pypi, input. run. rewrite Hin. run.
  apply String.eqb_neq in Hno. rewrite Hno. run.
  by rewrite <- ?app_assoc.
Qed.

Lemma upload_to_test_pypi_confirmed (p : process) (line : string) (rest : list string) :
  stdin p = line :: rest -> lower line = "y" ->
  exists evs,
    upload_to_test_pypi shell p =
      (Val (PyBool
              (returncode (shell "twine upload --repository testpypi dist/*" (sys p)).1 =? 0)%Z),
       Process (argv p) rest (shell "twine upload --repository testpypi dist/*" (sys p)).2
         (log p ++ [Call "upload_to_test_pypi"; Output test_pypi_prompt; Input line] ++ evs)) /\
    calls evs = [] /\ commands evs = ["twine upload --repository testpypi dist/*"] /\
    removed evs = [].
Proof.
  intros Hin Hyes. unfold upload_to_test_pypi, input. run. rewrite Hin. run.
  rewrite Hyes. simpl.
  match goal with
  | |- context [run_command _ _ ?d ?q] =>
      destruct (run_command_spec "twine upload --repository testpypi dist/*" d q) as (evs & H & Hev)
  end.
  simpl in H. rewrite H. exists evs. split; [|done].
  by rewrite <- ?app_assoc.
Qed.

Lemma upload_to_pypi_confirmed (p : process) (line : string) (rest : list string) :
  stdin p = line :: rest -> lower line = "y" ->
  exists evs,
    upload_to_pypi shell p =
      (Val (PyBool (returncode (shell "twine upload dist/*" (sys p)).1 =? 0)%Z),
       Process (argv p) rest (shell "twine upload dist/*" (sys p)).2
         (log p ++ [Call "upload_to_pypi"; Output pypi_prompt; Input line] ++ evs)) /\
    calls evs = [] /\ commands evs = ["twine upload dist/*"] /\ removed evs = [].
Proof.
  intros Hin Hyes. unfold upload_to_pypi, input. run. rewrite Hin. run.
  rewrite Hyes. simpl.
  match goal with
  | |- context [run_command _ _ ?d ?q] =>
      destruct (run_command_spec "twine upload dist/*" d q) as (evs & H & Hev)
  end.
  simpl in H. rewrite H. exists evs. split; [|done].
  by rewrite <- ?app_assoc.
Qed.

(** C10: at either upload prompt the upload command is handed to the shell
    if and only if the line read lowercases to exactly "y", that is, the
    line is "y" or "Y"; any other line (such as "yes", "Yes" or the empty
    line) runs no command and makes the function return [True]. *)
Theorem upload_iff_answer_lowercases_to_y
  (p : process) (line : string) (rest : list string) :
  stdin p = line :: rest ->
  commands (log (upload_to_test_pypi shell p).2) =
    commands (log p) ++
    (if bool_decide (lower line = "y")
     then ["twine upload --repository testpypi dist/*"] else []) /\
  commands (log (upload_to_pypi shell p).2) =
    commands (log p) ++ (if bool_decide (lower line = "y") then ["twine upload dist/*"] else []) /\
  (lower line <> "y" ->
     (upload_to_test_pypi shell p).1 = Val (PyBool true) /\
     (upload_to_pypi shell p).1 = Val (PyBool true)) /\
  (lower line = "y" <-> line = "y" \/ line = "Y").
Proof.
  intros Hin. split; [|split; [|split]].
  - case_bool_decide as Hy.
    + destruct (upload_to_test_pypi_confirmed p line rest Hin Hy) as (evs & -> & _ & Hc & _).
      simpl. rewrite commands_app. simpl. by rewrite Hc.
    + rewrite (upload_to_test_pypi_declined p line rest Hin Hy). simpl.
      by rewrite commands_app.
  - case_bool_decide as Hy.
    + destruct (upload_to_pypi_confirmed p line rest Hin Hy) as (evs & -> & _ & Hc & _).
      simpl. rewrite commands_app. simpl. by rewrite Hc.
    + rewrite (upload_to_pypi_declined p line rest Hin Hy). simpl.
      by rewrite commands_app.
  - intros Hy.
    by rewrite (upload_to_test_pypi_declined p line rest Hin Hy),
               (upload_to_pypi_declined p line rest Hin Hy).
  - apply lower_y.
Qed.

(** *** After the step loop *)

(** C4: once the step loop is passed in mode test-upload or upload, a
    declining answer at the prompt runs no upload command, is reported with
    "Upload cancelled.", and [main] returns normally: exit status 0. *)
Theorem declined_upload_is_success
  (p : process) (line : string) (rest : list string) :
  stdin p = line :: rest -> lower line <> "y" ->
  after_steps shell "test-upload" p =
    (Val tt,
     Process (argv p) rest (sys p)
       (log p ++ [Output (nl +:+ "✅ Package built successfully!");
                  Call "upload_to_test_pypi"; Output test_pypi_prompt;
                  Input line; Output "Upload cancelled.";
                  Output (nl +:+ "🎉 Build process completed!")])) /\
  after_steps shell "upload" p =
    (Val tt,
     Process (argv p) rest (sys p)
       (log p ++ [Output (nl +:+ "✅ Package built successfully!");
                  Call "upload_to_pypi"; Output pypi_prompt;
                  Input line; Output "Upload cancelled.";
                  Output (nl +:+ "🎉 Build process completed!")])) /\
  (forall action, action = "test-upload" \/ action = "upload" ->
     exit_code (after_steps shell action p).1 = 0%Z /\
     commands (log (after_steps shell action p).2) = commands (log p)).
Proof.
  intros Hin Hno.
  assert (Ht : after_steps shell "test-upload" p =
    (Val tt,
     Process (argv p) rest (sys p)
       (log p ++ [Output (nl +:+ "✅ Package built successfully!");
                  Call "upload_to_test_pypi"; Output test_pypi_prompt;
                  Input line; Output "Upload cancelled.";
                  Output (nl +:+ "🎉 Build process completed!")]))).
  { unfold after_steps. run.
    erewrite upload_to_test_pypi_declined by (simpl; eauto).
    run. by rewrite <- ?app_assoc. }
  assert (Hu : after_steps shell "upload" p =
    (Val tt,
     Process (argv p) rest (sys p)
       (log p ++ [Output (nl +:+ "✅ Package built successfully!");
                  Call "upload_to_pypi"; Output pypi_prompt;
                  Input line; Output "Upload cancelled.";
                  Output (nl +:+ "🎉 Build process completed!")]))).
  { unfold after_steps. run.
    erewrite upload_to_pypi_declined by (simpl; eauto).
    run. by rewrite <- ?app_assoc. }
  split; [done|]. split; [done|].
  intros action [-> | ->]; [rewrite Ht | rewrite Hu]; simpl;
    by rewrite commands_app, app_nil_r.
Qed.

(** Whatever is typed, an upload function is entered once and enters no
    other step function. *)
Lemma upload_to_test_pypi_calls (q : process) :
  exists evs,
    log (upload_to_test_pypi shell q).2 = log q ++ evs /\
    calls evs = ["upload_to_test_pypi"].
Proof.
  destruct (stdin q) as [|line rest] eqn:Hin.
  - unfold upload_to_test_pypi, input. run. rewrite Hin. simpl.
    rewrite <- ?app_assoc. by eexists.
  - destruct (decide (lower line = "y")) as [Hy|Hn].
    + destruct (upload_to_test_pypi_confirmed q line rest Hin Hy) as (evs & -> & Hc & _).
      simpl. eexists. split; [reflexivity|]. simpl. by rewrite Hc.
    + rewrite (upload_to_test_pypi_declined q line rest Hin Hn). simpl. by eexists.
Qed.

Lemma upload_to_pypi_calls (q : process) :
  exists evs,
    log (upload_to_pypi shell q).2 = log q ++ evs /\
    calls evs = ["upload_to_pypi"].
Proof.
  destruct (stdin q) as [|line rest] eqn:Hin.
  - unfold upload_to_pypi, input. run. rewrite Hin. simpl.
    rewrite <- ?app_assoc. by eexists.
  - destruct (decide (lower line = "y")) as [Hy|Hn].
    + destruct (upload_to_pypi_confirmed q line rest Hin Hy) as (evs & -> & Hc & _).
      simpl. eexists. split; [reflexivity|]. simpl. by rewrite Hc.
    + rewrite (upload_to_pypi_declined q line rest Hin Hn). simpl. by eexists.
Qed.

(** The code after the loop enters the upload function of its action and
    no other. *)
Lemma after_steps_calls (action : string) (q : process) :
  exists evs,
    log (after_steps shell action q).2 = log q ++ evs /\
    calls evs =
      (if String.eqb action "test-upload" then ["upload_to_test_pypi"]
       else if String.eqb action "upload" then ["upload_to_pypi"]
       else []).
Proof.
  unfold after_steps. run.
  destruct (String.eqb action "test-upload"); [|destruct (String.eqb action "upload")].
  - match goal with
    | |- context [upload_to_test_pypi _ ?q'] =>
        destruct (upload_to_test_pypi_calls q') as (evs & Hl & Hc);
        destruct (upload_to_test_pypi shell q') as [[v|code|e] q'']
    end; simpl in Hl |- *; rewrite Hl, <- ?app_assoc;
      eexists; (split; [reflexivity|]); rewrite ?calls_app; simpl;
      rewrite ?calls_app, Hc; done.
  - match goal with
    | |- context [upload_to_pypi _ ?q'] =>
        destruct (upload_to_pypi_calls q') as (evs & Hl & Hc);
        destruct (upload_to_pypi shell q') as [[v|code|e] q'']
    end; simpl in Hl |- *; rewrite Hl, <- ?app_assoc;
      eexists; (split; [reflexivity|]); rewrite ?calls_app; simpl;
      rewrite ?calls_app, Hc; done.
  - simpl. rewrite <- ?app_assoc. by eexists.
Qed.

(** *** Choosing the action *)

(** [select_action] only writes to the terminal and reads at most one
    line; it ends with an action or, at the end of input, with [EOFError]. *)
Lemma select_action_spec (q : process) :
  exists r q0 evs,
    select_action q = (r, q0) /\
    argv q0 = argv q /\ sys q0 = sys q /\ log q0 = log q ++ evs /\
    calls evs = [] /\ commands evs = [] /\ removed evs = [] /\
    (r = Raise "EOFError" \/ exists a, r = Val a).
Proof.
  destruct (select_action_cases q) as (evs & Hc & Hr & Hd & Hsel).
  destruct (argv q) as [|script [|arg args]] eqn:Ha;
    try destruct (stdin q) as [|line rest];
    eexists _, _, evs; (split; [exact Hsel|]); simpl;
    rewrite ?Ha; repeat (split; [done|]); eauto.
Qed.

Lemma build_action_not_clean (a : string) :
  a ∈ build_actions -> String.eqb a "clean" = false.
Proof.
  unfold build_actions. rewrite !elem_of_cons, elem_of_nil.
  intros [-> | [-> | [-> | []]]]; reflexivity.
Qed.

(** *** The two branches of [main] that clean *)

(** In mode clean [main] runs [clean_build] and reports; the [OSError] of a
    failed removal goes through it uncaught. *)
Lemma main_clean_spec (q q0 : process) :
  select_action q = (Val "clean", q0) ->
  exists ok dir evs,
    main scandir denied shell executable q =
      ((if ok : bool then Val tt else Raise "OSError"),
       Process (argv q0) (stdin q0) (Host dir (modules (sys q0)))
         (log q0 ++ cleaning_banner ++ evs ++
          (if ok then [Output (nl +:+ "✅ Clean completed!")] else []))) /\
    swept denied artifact_name (cwd (sys q0)) dir evs /\
    ((forall n, artifact_name n -> stuck denied (cwd (sys q0)) n = false) -> ok = true) /\
    (lists_entries scandir -> thorough denied artifact_name (cwd (sys q0)) dir ok).
Proof.
  intros Hsel.
  destruct (clean_build_spec denied scandir q0) as (ok & dir & evs & Hc & Hrest).
  exists ok, dir, evs. split; [|exact Hrest].
  unfold main. unfold bind at 1. rewrite Hsel.
  change (String.eqb "clean" "clean") with true. cbv iota.
  unfold bind at 1. rewrite Hc.
  destruct ok; cbv beta iota delta [bind print emit ret sys_exit truthy negb];
    cbn [argv stdin sys log]; rewrite <- ?app_assoc, ?app_nil_r; reflexivity.
Qed.

(** In every build mode [main] runs [clean_build], takes its [None] for a
    failure and leaves through [sys.exit(1)], unless a removal raised. *)
Lemma main_build_spec (q q0 : process) (a : string) :
  select_action q = (Val a, q0) -> a ∈ build_actions ->
  exists ok dir evs,
    main scandir denied shell executable q =
      ((if ok : bool then Exit 1 else Raise "OSError"),
       Process (argv q0) (stdin q0) (Host dir (modules (sys q0)))
         (log q0 ++ cleaning_banner ++ evs ++
          (if ok then [Output (nl +:+ "❌ Build failed at step: Clean build artifacts")]
           else []))) /\
    swept denied artifact_name (cwd (sys q0)) dir evs /\
    ((forall n, artifact_name n -> stuck denied (cwd (sys q0)) n = false) -> ok = true) /\
    (lists_entries scandir -> thorough denied artifact_name (cwd (sys q0)) dir ok).
Proof.
  intros Hsel Ha.
  destruct (clean_build_spec denied scandir q0) as (ok & dir & evs & Hc & Hrest).
  exists ok, dir, evs. split; [|exact Hrest].
  unfold main. unfold bind at 1. rewrite Hsel.
  rewrite (build_action_not_clean a Ha), bool_decide_eq_true_2 by done.
  cbn [steps run_steps]. unfold bind at 1. unfold bind at 1. rewrite Hc.
  destruct ok; cbv beta iota delta [bind print emit ret sys_exit truthy negb];
    cbn [argv stdin sys log]; rewrite <- ?app_assoc, ?app_nil_r; reflexivity.
Qed.


(** What any run of [main] leaves behind: no command was run, at most
    [clean_build] was entered, and the directory lost artifacts at most. *)
Lemma main_footprint (q : process) :
  exists evs,
    log (main scandir denied shell executable q).2 = log q ++ evs /\
    commands evs = [] /\
    (calls evs = [] \/ calls evs = ["clean_build"]) /\
    modules (sys (main scandir denied shell executable q).2) = modules (sys q) /\
    forall n,
      cwd (sys (main scandir denied shell executable q).2) !! n = cwd (sys q) !! n \/
      artifact_name n /\ removable (cwd (sys q) !! n) = true /\
      cwd (sys (main scandir denied shell executable q).2) !! n = None.
Proof.
  destruct (select_action_spec q)
    as (r & q0 & evs0 & Hsel & _ & Hsys & Hl & Hc0 & Hr0 & _ & Hr).
  destruct Hr as [-> | [a ->]].
  - assert (Hmain : main scandir denied shell executable q = (Raise "EOFError", q0)).
    { unfold main. unfold bind at 1. by rewrite Hsel. }
    exists evs0. rewrite Hmain. cbn [fst snd]. rewrite Hsys.
    split; [done|]. split; [done|]. split; [by left|]. split; [done|]. by left.
  - destruct (String.eqb a "clean") eqn:Hclean;
      [|destruct (decide (a ∈ build_actions)) as [Ha|Ha]].
    + apply String.eqb_eq in Hclean. subst a.
      destruct (main_clean_spec q q0 Hsel) as (ok & dir & evs & -> & S & _).
      destruct (swept_quiet _ _ _ _ _ S) as [Hce Hre].
      destruct S as (S & _). rewrite Hsys in S.
      cbn [fst snd log sys cwd modules]. rewrite Hl, Hsys.
      eexists. rewrite <- !app_assoc. split; [reflexivity|].
      rewrite !commands_app, !calls_app, Hc0, Hr0, Hce, Hre.
      destruct ok; (split; [reflexivity|]); (split; [by right|]); (split; [done|]);
        intros n; destruct (S n) as [H | (Hn & Hr & _ & Hg)]; auto.
    + destruct (main_build_spec q q0 a Hsel Ha) as (ok & dir & evs & -> & S & _).
      destruct (swept_quiet _ _ _ _ _ S) as [Hce Hre].
      destruct S as (S & _). rewrite Hsys in S.
      cbn [fst snd log sys cwd modules]. rewrite Hl, Hsys.
      eexists. rewrite <- !app_assoc. split; [reflexivity|].
      rewrite !commands_app, !calls_app, Hc0, Hr0, Hce, Hre.
      destruct ok; (split; [reflexivity|]); (split; [by right|]); (split; [done|]);
        intros n; destruct (S n) as [H | (Hn & Hr & _ & Hg)]; auto.
    + assert (Hmain : main scandir denied shell executable q =
                (Exit 1,
                 Process (argv q0) (stdin q0) (sys q0)
                   (log q0 ++ [Output ("❌ Unknown action: " +:+ a)]))).
      { unfold main. unfold bind at 1. rewrite Hsel, Hclean.
        by rewrite bool_decide_eq_false_2 by done. }
      rewrite Hmain. cbn [fst snd log sys]. rewrite Hl, Hsys.
      eexists. rewrite <- !app_assoc. split; [reflexivity|].
      rewrite !commands_app, !calls_app, Hc0, Hr0.
      split; [done|]. split; [by left|]. split; [done|]. by left.
Qed.

(** *** The dependency check *)

Lemma missing_cases (mods : gset string) :
  filter (fun package => package ∉ mods) required_packages =
    (if bool_decide ("build" ∈ mods) then [] else ["build"]) ++
    (if bool_decide ("twine" ∈ mods) then [] else ["twine"]).
Proof.
  unfold required_packages. rewrite !filter_cons, filter_nil.
  repeat case_decide; repeat case_bool_decide; done.
Qed.

(** [check_requirements] in full: result, host and log. *)
Lemma check_requirements_full (p : process) :
  let missing := filter (fun package => package ∉ modules (sys p)) required_packages in
  let install := shell (pip_install executable missing) (sys p) in
  exists evs,
    check_requirements shell executable p =
      (Val (PyBool match missing with
                   | [] => true
                   | _ :: _ => (returncode install.1 =? 0)%Z
                   end),
       Process (argv p) (stdin p)
         match missing with [] => sys p | _ :: _ => install.2 end
         (log p ++ evs)) /\
    calls evs = ["check_requirements"] /\
    commands evs =
      match missing with [] => [] | _ :: _ => [pip_install executable missing] end.
Proof.
  set (present := fun package => bool_decide (package ∈ modules (sys p))).
  assert (Hmissing :
    filter (fun package => package ∉ modules (sys p)) required_packages =
      (if present "build" then [] else ["build"]) ++
      (if present "twine" then [] else ["twine"])).
  { unfold required_packages, present. rewrite !filter_cons, filter_nil.
    repeat case_decide; repeat case_bool_decide; done. }
  cbv zeta. rewrite Hmissing. clear Hmissing.
  unfold check_requirements, required_packages. run.
  unfold check_package_installed, present. run.
  destruct (bool_decide ("build" ∈ modules (sys p))); run;
    destruct (bool_decide ("twine" ∈ modules (sys p))); run.
  1: { destruct p as [a i h l]. simpl. rewrite <- ?app_assoc. simpl.
       eexists. split; [reflexivity|done]. }
  all: match goal with
       | |- context [run_command _ ?c ?d ?q] =>
           destruct (run_command_spec c d q) as (evs & -> & Hcl & Hc & _)
       end;
       simpl;
       destruct (returncode _ =? 0)%Z; simpl;
       rewrite <- ?app_assoc; simpl;
       eexists; (split; [reflexivity|]);
       rewrite ?calls_app, ?commands_app; simpl;
       rewrite ?calls_app, ?commands_app, ?Hcl, ?Hc; done.
Qed.

Lemma build_package_full (p : process) :
  exists evs,
    build_package shell executable p =
      (Val (PyBool (returncode (shell (executable +:+ " -m build") (sys p)).1 =? 0)%Z),
       Process (argv p) (stdin p) (shell (executable +:+ " -m build") (sys p)).2
         (log p ++ evs)) /\
    calls evs = ["build_package"] /\
    commands evs = [executable +:+ " -m build"].
Proof.
  unfold build_package. run.
  match goal with
  | |- context [run_command _ ?c ?d ?q] =>
      destruct (run_command_spec c d q) as (evs & -> & Hcl & Hc & _)
  end.
  simpl. rewrite <- app_assoc. eexists. split; [reflexivity|].
  simpl. by rewrite Hcl, Hc.
Qed.

Lemma check_package_full (p : process) :
  exists evs,
    check_package shell p =
      (Val (PyBool (returncode (shell "twine check dist/*" (sys p)).1 =? 0)%Z),
       Process (argv p) (stdin p) (shell "twine check dist/*" (sys p)).2
         (log p ++ evs)) /\
    calls evs = ["check_package"] /\
    commands evs = ["twine check dist/*"].
Proof.
  unfold check_package. run.
  match goal with
  | |- context [run_command _ ?c ?d ?q] =>
      destruct (run_command_spec c d q) as (evs & -> & Hcl & Hc & _)
  end.
  simpl. rewrite <- app_assoc. eexists. split; [reflexivity|].
  simpl. by rewrite Hcl, Hc.
Qed.


(** C8: [check_requirements] looks for the packages "build" and "twine".
    With both importable it succeeds and hands nothing to the shell, the
    host stays as it was.  Otherwise it hands the shell exactly one
    command, [sys.executable] followed by "-m pip install" and the names of
    the packages that are not importable and no other, and it returns
    [False] exactly when that command returns a code other than 0. *)
Theorem check_requirements_installs_only_missing (p : process) :
  let have := fun package => bool_decide (package ∈ modules (sys p)) in
  let run := check_requirements shell executable p in
  let installs := fun packages =>
    let cmd := executable +:+ " -m pip install " +:+ packages in
    commands (log run.2) = commands (log p) ++ [cmd] /\
    run.1 = Val (PyBool (returncode (shell cmd (sys p)).1 =? 0)%Z) /\
    sys run.2 = (shell cmd (sys p)).2 in
  calls (log run.2) = calls (log p) ++ ["check_requirements"] /\
  match have "build", have "twine" with
  | true, true =>
      commands (log run.2) = commands (log p) /\
      run.1 = Val (PyBool true) /\
      sys run.2 = sys p
  | false, true => installs "build"
  | true, false => installs "twine"
  | false, false => installs "build twine"
  end.
Proof.
  intros have run installs.
  destruct (check_requirements_full p) as (evs & H & Hcl & Hcm).
  cbv zeta in H. rewrite missing_cases in H, Hcm.
  unfold installs, run, have. clear installs run have. rewrite H. clear H.
  cbn [fst snd log sys]. rewrite calls_app, commands_app, Hcl, Hcm.
  split; [reflexivity|].
  destruct (bool_decide ("build" ∈ modules (sys p))),
           (bool_decide ("twine" ∈ modules (sys p)));
    cbn; rewrite ?app_nil_r; done.
Qed.

(** *** The step loop *)

(** The loop stops at the first step whose result is not truthy: it
    reports that step's label and exits with status 1, in the state the
    step left. *)
Lemma run_steps_halts
  (pre post : list (M pyval * string)) (f : M pyval) (name : string)
  (p p1 p2 : process) (v : pyval) :
  run_steps pre p = (Val tt, p1) ->
  f p1 = (Val v, p2) -> truthy v = false ->
  run_steps (pre ++ (f, name) :: post) p =
    (Exit 1,
     Process (argv p2) (stdin p2) (sys p2)
       (log p2 ++ [Output (nl +:+ "❌ Build failed at step: " +:+ name)])).
Proof.
  intros Hpre Hf Hv. revert p Hpre.
  induction pre as [|[g label] pre IH]; intros p Hpre.
  - simpl in Hpre. injection Hpre as ->.
    simpl. unfold bind at 1. rewrite Hf, Hv. reflexivity.
  - simpl in Hpre |- *. unfold bind at 1 in Hpre. unfold bind at 1.
    destruct (g p) as [[w|code|e] px]; try discriminate Hpre.
    destruct (truthy w); simpl in Hpre |- *; [by apply IH|discriminate Hpre].
Qed.

(** When every step returns a truthy value the loop is passed. *)
Lemma run_steps_passes (l : list (M pyval * string)) (p : process) :
  Forall (fun step => forall q, exists q', step.1 q = (Val (PyBool true), q')) l ->
  exists p', run_steps l p = (Val tt, p').
Proof.
  intros Hall. revert p. induction Hall as [|[g label] l Hg _ IH]; intros p.
  - by exists p.
  - destruct (Hg p) as (q' & Hq). simpl in Hq |- *.
    unfold bind at 1. rewrite Hq. simpl. apply IH.
Qed.

(** C3: in mode build, test-upload or upload [main] runs the step loop and
    then the follow-on action.  Wherever in the list of steps the loop
    stands, when the steps up to some core step pass and that step hands
    back a result that is not truthy, the run ends there: the label of that
    step is printed, the process exits with status 1 in the state the step
    left, and neither a later step nor the follow-on action runs. *)
Theorem failing_step_halts_pipeline
  (action : string) (passed pre post : list (M pyval * string))
  (f : M pyval) (name : string) (p p1 p2 : process) (v : pyval) :
  steps scandir denied shell executable = passed ++ pre ++ (f, name) :: post ->
  run_steps pre p = (Val tt, p1) ->
  f p1 = (Val v, p2) -> truthy v = false ->
  (run_steps (pre ++ (f, name) :: post);; after_steps shell action) p =
    (Exit 1,
     Process (argv p2) (stdin p2) (sys p2)
       (log p2 ++ [Output (nl +:+ "❌ Build failed at step: " +:+ name)])) /\
  exit_code ((run_steps (pre ++ (f, name) :: post);; after_steps shell action) p).1 = 1%Z /\
  calls (log ((run_steps (pre ++ (f, name) :: post);; after_steps shell action) p).2) =
    calls (log p2) /\
  commands (log ((run_steps (pre ++ (f, name) :: post);; after_steps shell action) p).2) =
    commands (log p2) /\
  name ∈ ["Clean build artifacts"; "Check requirements"; "Build package"; "Check package"].
Proof.
  intros Hsteps Hpre Hf Hv.
  assert (Hrun : (run_steps (pre ++ (f, name) :: post);; after_steps shell action) p =
    (Exit 1,
     Process (argv p2) (stdin p2) (sys p2)
       (log p2 ++ [Output (nl +:+ "❌ Build failed at step: " +:+ name)]))).
  { unfold bind at 1. by rewrite (run_steps_halts pre post f name p p1 p2 v Hpre Hf Hv). }
  rewrite Hrun. cbn [fst snd log exit_code].
  rewrite calls_app, commands_app. simpl. rewrite !app_nil_r.
  repeat (split; [reflexivity|]).
  assert (Hin : (f, name) ∈ steps scandir denied shell executable).
  { rewrite Hsteps, !elem_of_app. right. right. by left. }
  unfold steps in Hin. rewrite !elem_of_cons, elem_of_nil in Hin.
  rewrite !elem_of_cons.
  destruct Hin as [H | [H | [H | [H | []]]]]; injection H as _ ->; auto.
Qed.

(** C1 (the code departs from it): in mode build, test-upload or upload
    [main] enters [clean_build] and nothing else, and ends with status 1.
    [clean_build] returns [None], the loop reads that as a failure, reports
    the step "Clean build artifacts" and exits with status 1; when an
    artifact cannot be removed, a link to a directory for one,
    [clean_build] does not even return and [main] ends with its [OSError].
    The three later steps and the follow-on action never run, whatever the
    tools would answer. *)
Theorem build_halts_after_clean_build (q q0 : process) (a : string) :
  select_action q = (Val a, q0) -> a ∈ build_actions ->
  exit_code (main scandir denied shell executable q).1 = 1%Z /\
  calls (log (main scandir denied shell executable q).2) = calls (log q) ++ ["clean_build"] /\
  commands (log (main scandir denied shell executable q).2) = commands (log q) /\
  ((main scandir denied shell executable q).1 = Exit 1 /\
   last (log (main scandir denied shell executable q).2) =
     Some (Output (nl +:+ "❌ Build failed at step: Clean build artifacts"))
   \/ (main scandir denied shell executable q).1 = Raise "OSError") /\
  (~ stuck_artifact denied (cwd (sys q)) ->
   (main scandir denied shell executable q).1 = Exit 1 /\
   last (log (main scandir denied shell executable q).2) =
     Some (Output (nl +:+ "❌ Build failed at step: Clean build artifacts"))) /\
  (lists_entries scandir -> stuck_artifact denied (cwd (sys q)) ->
   (main scandir denied shell executable q).1 = Raise "OSError").
Proof.
  intros Hsel Ha.
  destruct (main_build_spec q q0 a Hsel Ha) as (ok & dir & evs & -> & S & R & F).
  destruct (select_action_spec q)
    as (r & q0' & evs0 & Hsel' & _ & Hsys & Hl & Hc0 & Hr0 & _).
  rewrite Hsel in Hsel'. injection Hsel' as <- <-.
  destruct (swept_quiet _ _ _ _ _ S) as [Hc Hr].
  rewrite Hsys in R, F.
  cbn [fst snd log]. rewrite Hl.
  split; [by destruct ok|]. split; [|split; [|split; [|split]]].
  - rewrite !calls_app, Hc0, Hc. destruct ok; simpl; by rewrite ?app_nil_r.
  - rewrite !commands_app, Hr0, Hr. destruct ok; simpl; by rewrite !app_nil_r.
  - destruct ok; [left|by right]. split; [reflexivity|].
    by rewrite !app_assoc, last_snoc.
  - intros Hno. rewrite (R (no_stuck_artifact _ _ Hno)).
    split; [reflexivity|]. by rewrite !app_assoc, last_snoc.
  - intros Hls (n & Hn & Hstuck). destruct ok; [|reflexivity].
    destruct (F Hls eq_refl) as [_ L]. rewrite (L n Hn) in Hstuck. discriminate Hstuck.
Qed.

(** With a line to read, the code after the loop always returns normally:
    nothing there looks at what the upload function returned. *)
Lemma after_steps_returns
  (action : string) (p : process) (line : string) (rest : list string) :
  stdin p = line :: rest -> (after_steps shell action p).1 = Val tt.
Proof.
  intros Hin. unfold after_steps. run.
  destruct (String.eqb action "test-upload"); [|destruct (String.eqb action "upload")];
    [| |done].
  - destruct (decide (lower line = "y")) as [Hy|Hn].
    + match goal with
      | |- context [upload_to_test_pypi _ ?q'] =>
          destruct (upload_to_test_pypi_confirmed q' line rest Hin Hy) as (evs & -> & _)
      end. done.
    + by erewrite upload_to_test_pypi_declined by (simpl; eauto).
  - destruct (decide (lower line = "y")) as [Hy|Hn].
    + match goal with
      | |- context [upload_to_pypi _ ?q'] =>
          destruct (upload_to_pypi_confirmed q' line rest Hin Hy) as (evs & -> & _)
      end. done.
    + by erewrite upload_to_pypi_declined by (simpl; eauto).
Qed.

(** C2 (the code departs from it): the exit status does not follow the
    outcome of the steps.  In mode build, test-upload or upload [main]
    exits with status 1 although no command was handed to the shell, hence
    none failed; and the code after the loop returns normally, exit status
    0, whatever the confirmed upload command returned. *)
Theorem exit_status_ignores_step_outcomes
  (q q0 : process) (a action : string) (p : process) (line : string) (rest : list string) :
  select_action q = (Val a, q0) -> a ∈ build_actions ->
  stdin p = line :: rest ->
  exit_code (main scandir denied shell executable q).1 = 1%Z /\
  commands (log (main scandir denied shell executable q).2) = commands (log q) /\
  exit_code (after_steps shell action p).1 = 0%Z.
Proof.
  intros Hsel Ha Hin.
  destruct (main_build_spec q q0 a Hsel Ha) as (ok & dir & evs & -> & S & _).
  destruct (select_action_spec q) as (r & q0' & evs0 & Hsel' & _ & _ & Hl & _ & Hr0 & _).
  rewrite Hsel in Hsel'. injection Hsel' as <- <-.
  destruct (swept_quiet _ _ _ _ _ S) as [_ Hr].
  rewrite (after_steps_returns action p line rest Hin).
  cbn [fst snd log exit_code]. rewrite Hl.
  split; [by destruct ok|]. split; [|reflexivity].
  rewrite !commands_app, Hr0, Hr. destruct ok; simpl; by rewrite !app_nil_r.
Qed.

(** *** Modes that build nothing *)

(** C5: when the chosen action, lowercased, is none of clean, build,
    test-upload and upload, [main] reports it and exits with status 1; no
    step function is entered, no command is run, nothing is removed and the
    host is untouched. *)
Theorem unknown_action_runs_nothing (q q0 : process) (a : string) :
  select_action q = (Val a, q0) ->
  a ∉ ["clean"; "build"; "test-upload"; "upload"] ->
  main scandir denied shell executable q =
    (Exit 1,
     Process (argv q0) (stdin q0) (sys q0)
       (log q0 ++ [Output ("❌ Unknown action: " +:+ a)])) /\
  exit_code (main scandir denied shell executable q).1 = 1%Z /\
  sys (main scandir denied shell executable q).2 = sys q /\
  calls (log (main scandir denied shell executable q).2) = calls (log q) /\
  commands (log (main scandir denied shell executable q).2) = commands (log q) /\
  removed (log (main scandir denied shell executable q).2) = removed (log q).
Proof.
  intros Hsel Hno.
  assert (Hmain : main scandir denied shell executable q =
    (Exit 1,
     Process (argv q0) (stdin q0) (sys q0)
       (log q0 ++ [Output ("❌ Unknown action: " +:+ a)]))).
  { unfold main. unfold bind at 1. rewrite Hsel.
    assert (String.eqb a "clean" = false) as ->.
    { apply String.eqb_neq. intros ->. apply Hno. by left. }
    rewrite bool_decide_eq_false_2; [reflexivity|].
    intros Hin. apply Hno. by right. }
  destruct (select_action_spec q)
    as (r & q0' & evs0 & Hsel' & _ & Hsys & Hl & Hc0 & Hr0 & Hd0 & _).
  rewrite Hsel in Hsel'. injection Hsel' as <- <-.
  rewrite Hmain. cbn [fst snd log sys exit_code]. rewrite Hl.
  repeat split; try done.
  - rewrite !calls_app, Hc0. simpl. by rewrite !app_nil_r.
  - rewrite !commands_app, Hr0. simpl. by rewrite !app_nil_r.
  - rewrite !removed_app, Hd0. simpl. by rewrite !app_nil_r.
Qed.


(** C7: once the step loop is passed and the answer at the prompt
    lowercases to "y", the code after the loop hands the shell exactly one
    command: "twine upload --repository testpypi dist/*" in mode
    test-upload, "twine upload dist/*" in mode upload, and it enters the
    upload function of that mode only.  No run enters both upload
    functions, neither from the point after the loop nor from the start of
    [main]. *)
Theorem confirmed_upload_runs_matching_command_once
  (p : process) (line : string) (rest : list string) :
  stdin p = line :: rest -> lower line = "y" ->
  (commands (log (after_steps shell "test-upload" p).2) =
     commands (log p) ++ ["twine upload --repository testpypi dist/*"] /\
   calls (log (after_steps shell "test-upload" p).2) =
     calls (log p) ++ ["upload_to_test_pypi"]) /\
  (commands (log (after_steps shell "upload" p).2) =
     commands (log p) ++ ["twine upload dist/*"] /\
   calls (log (after_steps shell "upload" p).2) =
     calls (log p) ++ ["upload_to_pypi"]) /\
  (forall action q, exists evs,
     log (after_steps shell action q).2 = log q ++ evs /\
     ~ ("upload_to_test_pypi" ∈ calls evs /\ "upload_to_pypi" ∈ calls evs)) /\
  (forall q, exists evs,
     log (main scandir denied shell executable q).2 = log q ++ evs /\
     ~ ("upload_to_test_pypi" ∈ calls evs /\ "upload_to_pypi" ∈ calls evs)).
Proof.
  intros Hin Hy. split; [|split; [|split]].
  - unfold after_steps. run.
    match goal with
    | |- context [upload_to_test_pypi _ ?q'] =>
        destruct (upload_to_test_pypi_confirmed q' line rest Hin Hy)
          as (evs & -> & Hc & Hr & _)
    end.
    cbn [fst snd log]. rewrite !commands_app, !calls_app, Hc, Hr. simpl.
    by rewrite !app_nil_r.
  - unfold after_steps. run.
    match goal with
    | |- context [upload_to_pypi _ ?q'] =>
        destruct (upload_to_pypi_confirmed q' line rest Hin Hy)
          as (evs & -> & Hc & Hr & _)
    end.
    cbn [fst snd log]. rewrite !commands_app, !calls_app, Hc, Hr. simpl.
    by rewrite !app_nil_r.
  - intros action q. destruct (after_steps_calls action q) as (evs & Hl & Hc).
    exists evs. split; [done|]. rewrite Hc.
    destruct (String.eqb action "test-upload"); [|destruct (String.eqb action "upload")];
      rewrite ?elem_of_cons, ?elem_of_nil; intros [H1 H2];
      repeat match goal with H : _ \/ _ |- _ => destruct H end; done.
  - intros q. destruct (main_footprint q) as (evs & Hl & _ & [Hc|Hc] & _);
      exists evs; (split; [done|]); rewrite Hc;
      rewrite ?elem_of_cons, ?elem_of_nil; intros [H1 H2];
      repeat match goal with H : _ \/ _ |- _ => destruct H end; done.
Qed.

(** *** Cleaning twice *)


(** *** What [clean_build] removes *)



(** X4: whatever the arguments, the input and the tools, a run of [main]
    hands no command to the shell, enters no step function other than
    [clean_build], leaves the importable modules as they were, and changes
    the directory only by removing artifact entries that were directories
    or regular files. *)
Theorem main_only_removes_artifacts (q : process) (n : string) :
  commands (appended q (main scandir denied shell executable q).2) = [] /\
  (calls (appended q (main scandir denied shell executable q).2) = [] \/
   calls (appended q (main scandir denied shell executable q).2) = ["clean_build"]) /\
  modules (sys (main scandir denied shell executable q).2) = modules (sys q) /\
  (cwd (sys (main scandir denied shell executable q).2) !! n = cwd (sys q) !! n \/
   artifact_name n /\ removable (cwd (sys q) !! n) = true /\
   cwd (sys (main scandir denied shell executable q).2) !! n = None).
Proof.
  destruct (main_footprint q) as (evs & Hl & Hc & Hcalls & Hm & Hd).
  rewrite (appended_app _ _ _ Hl). done.
Qed.

(** X3: without an action on the command line and with standard input at
    its end, [main] dies of the [EOFError] that [input] raises: exit status
    1, no step function entered, no command run, nothing removed. *)
Theorem main_at_end_of_input (q : process) :
  List.length (argv q) <= 1 -> stdin q = [] ->
  (main scandir denied shell executable q).1 = Raise "EOFError" /\
  exit_code (main scandir denied shell executable q).1 = 1%Z /\
  sys (main scandir denied shell executable q).2 = sys q /\
  calls (appended q (main scandir denied shell executable q).2) = [] /\
  commands (appended q (main scandir denied shell executable q).2) = [] /\
  removed (appended q (main scandir denied shell executable q).2) = [].
Proof.
  intros Hargv Hin.
  destruct (select_action_cases q) as (evs & Hc & Hr & Hd & Hsel).
  assert (Hsel' : select_action q =
            (Raise "EOFError", Process (argv q) [] (sys q) (log q ++ evs))).
  { rewrite Hsel, Hin. destruct (argv q) as [|script [|arg args]]; try reflexivity.
    simpl in Hargv. lia. }
  remember (main scandir denied shell executable q) as res eqn:Hres.
  unfold main in Hres. unfold bind at 1 in Hres. rewrite Hsel' in Hres.
  subst res. cbn [fst snd sys exit_code].
  erewrite appended_app by (cbn [log]; reflexivity). done.
Qed.

(** X7: the action [select_action] hands to [main] is always lowercase, so
    the modes are recognised in any spelling of case.  Choosing it changes
    neither the host nor the arguments.  Read at the prompt, it costs one
    line of input and is never empty (an empty line means "build"); given
    on the command line, it is the lowercased first argument and no input
    is read. *)
Theorem select_action_yields_lowercase (q q0 : process) (a : string) :
  select_action q = (Val a, q0) ->
  lower a = a /\
  sys q0 = sys q /\ argv q0 = argv q /\
  (List.length (argv q) <= 1 ->
     a <> EmptyString /\ exists line, stdin q = line :: stdin q0) /\
  (2 <= List.length (argv q) ->
     stdin q0 = stdin q /\ lower <$> argv q !! 1 = Some a).
Proof.
  destruct (select_action_cases q) as (evs & _ & _ & _ & ->).
  destruct (argv q) as [|script [|arg args]] eqn:Ha.
  - destruct (stdin q) as [|line rest] eqn:Hin; intros H; [discriminate H|].
    injection H as <- <-. simpl.
    destruct (default_action_lowercase line) as [Hl Hne].
    split; [exact Hl|]. split; [reflexivity|]. split; [reflexivity|].
    split; [eauto|]. intros Hlen. lia.
  - destruct (stdin q) as [|line rest] eqn:Hin; intros H; [discriminate H|].
    injection H as <- <-. simpl.
    destruct (default_action_lowercase line) as [Hl Hne].
    split; [exact Hl|]. split; [reflexivity|]. split; [reflexivity|].
    split; [eauto|]. intros Hlen. lia.
  - intros H. injection H as <- <-. simpl.
    split; [apply lower_idempotent|]. split; [reflexivity|]. split; [reflexivity|].
    split; [intros Hlen; lia|]. intros _. by split.
Qed.

(** X6: with standard input at its end, an upload function raises
    [EOFError] right after its prompt and hands nothing to the shell; the
    code after the step loop then ends with exit status 1, the host
    untouched. *)
Theorem upload_at_end_of_input (p : process) :
  stdin p = [] ->
  (upload_to_test_pypi shell p).1 = Raise "EOFError" /\
  (upload_to_pypi shell p).1 = Raise "EOFError" /\
  commands (appended p (upload_to_test_pypi shell p).2) = [] /\
  commands (appended p (upload_to_pypi shell p).2) = [] /\
  (forall action, action = "test-upload" \/ action = "upload" ->
     exit_code (after_steps shell action p).1 = 1%Z /\
     commands (appended p (after_steps shell action p).2) = [] /\
     sys (after_steps shell action p).2 = sys p).
Proof.
  intros Hin.
  assert (Ht : upload_to_test_pypi shell p =
    (Raise "EOFError",
     Process (argv p) [] (sys p)
       (log p ++ [Call "upload_to_test_pypi"; Output test_pypi_prompt]))).
  { unfold upload_to_test_pypi, input. run. rewrite Hin. by rewrite <- app_assoc. }
  assert (Hu : upload_to_pypi shell p =
    (Raise "EOFError",
     Process (argv p) [] (sys p)
       (log p ++ [Call "upload_to_pypi"; Output pypi_prompt]))).
  { unfold upload_to_pypi, input. run. rewrite Hin. by rewrite <- app_assoc. }
  rewrite Ht, Hu. unfold appended. cbn [fst snd log].
  rewrite !drop_app_length.
  repeat (split; [reflexivity|]).
  intros action [-> | ->]; unfold after_steps, upload_to_test_pypi, upload_to_pypi, input;
    run; rewrite Hin; cbn [fst snd exit_code sys log];
    rewrite <- ?app_assoc, drop_app_length; done.
Qed.

(** *** The steps after cleaning *)

(** X5: the step loop run on the three steps that follow [clean_build]
    is fail-fast in the order check requirements, build, check package.
    The installer is run only when a tool is missing, the build command
    only when the dependency check succeeded, and the package check only
    when the build succeeded, each on the host its predecessor left.  The
    loop is passed exactly when all three succeed; otherwise it exits with
    status 1 after reporting the label of the first step that failed. *)
Theorem later_steps_fail_fast (p : process) :
  let missing := filter (fun package => package ∉ modules (sys p)) required_packages in
  let install := shell (pip_install executable missing) (sys p) in
  let ok1 := match missing with [] => true | _ :: _ => (returncode install.1 =? 0)%Z end in
  let h1 := match missing with [] => sys p | _ :: _ => install.2 end in
  let build := shell (executable +:+ " -m build") h1 in
  let ok2 := (returncode build.1 =? 0)%Z in
  let check := shell "twine check dist/*" build.2 in
  let ok3 := (returncode check.1 =? 0)%Z in
  let run := run_steps (tail (steps scandir denied shell executable)) p in
  run.1 = (if ok1 && ok2 && ok3 then Val tt else Exit 1) /\
  commands (appended p run.2) =
    match missing with [] => [] | _ :: _ => [pip_install executable missing] end ++
    (if ok1 then (executable +:+ " -m build") :: (if ok2 then ["twine check dist/*"] else [])
     else []) /\
  calls (appended p run.2) =
    "check_requirements" ::
    (if ok1 then "build_package" :: (if ok2 then ["check_package"] else []) else []) /\
  (ok1 && ok2 && ok3 = false ->
   last (log run.2) =
     Some (Output (nl +:+ "❌ Build failed at step: " +:+
                   (if ok1 then if ok2 then "Check package" else "Build package"
                    else "Check requirements")))).
Proof.
  intros missing install ok1 h1 build ok2 check ok3 run.
  destruct (check_requirements_full p) as (e1 & H1 & Hcl1 & Hcm1).
  cbv zeta in H1. fold missing install in H1, Hcm1. fold ok1 h1 in H1.
  set (p1 := Process (argv p) (stdin p) h1 (log p ++ e1)) in *.
  destruct (build_package_full p1) as (e2 & H2 & Hcl2 & Hcm2).
  change (sys p1) with h1 in H2. fold build ok2 in H2.
  set (p2 := Process (argv p1) (stdin p1) build.2 (log p1 ++ e2)) in *.
  destruct (check_package_full p2) as (e3 & H3 & Hcl3 & Hcm3).
  change (sys p2) with build.2 in H3. fold check ok3 in H3.
  assert (Hrun : run =
    if ok1 then
      if ok2 then
        if ok3 then (Val tt, Process (argv p2) (stdin p2) check.2 (log p2 ++ e3))
        else (Exit 1, Process (argv p2) (stdin p2) check.2
                        ((log p2 ++ e3) ++
                         [Output (nl +:+ "❌ Build failed at step: " +:+ "Check package")]))
      else (Exit 1, Process (argv p1) (stdin p1) build.2
                      ((log p1 ++ e2) ++
                       [Output (nl +:+ "❌ Build failed at step: " +:+ "Build package")]))
    else (Exit 1, Process (argv p) (stdin p) h1
                    ((log p ++ e1) ++
                     [Output (nl +:+ "❌ Build failed at step: " +:+ "Check requirements")]))).
  { unfold run. cbn [steps tail run_steps].
    unfold bind at 1. rewrite H1. cbn [truthy negb].
    destruct ok1; [|reflexivity]. cbn [negb].
    unfold bind at 1. fold p1. rewrite H2. cbn [truthy negb].
    destruct ok2; [|reflexivity]. cbn [negb].
    unfold bind at 1. fold p2. rewrite H3. cbn [truthy negb].
    destruct ok3; reflexivity. }
  rewrite Hrun. clear Hrun H1 H2 H3. unfold appended.
  destruct ok1, ok2, ok3; cbn [fst snd log andb p1 p2];
    rewrite <- ?app_assoc, drop_app_length, ?calls_app, ?commands_app,
            ?Hcl1, ?Hcl2, ?Hcl3, ?Hcm1, ?Hcm2, ?Hcm3;
    (repeat split; try done);
    intros _; rewrite ?app_assoc; apply last_snoc.
Qed.


End Pipeline.

(** ** The theorems at concrete runs *)


(** Where nothing is denied, a directory none of whose entries is a link
    to a directory has no stuck artifact. *)
Lemma link_free_no_stuck_artifact (dir : gmap string kind) :
  Forall (fun entry => entry.2 <> DirectoryLink) (map_to_list dir) ->
  ~ stuck_artifact nothing_denied dir.
Proof.
  intros Hall (n & _ & Hs). unfold stuck in Hs.
  destruct (dir !! n) as [k|] eqn:Hn; [|discriminate Hs].
  apply elem_of_map_to_list in Hn. rewrite Forall_forall in Hall.
  specialize (Hall _ Hn). destruct k; try discriminate Hs. by destruct Hall.
Qed.

Lemma built_tree_unstuck : ~ stuck_artifact nothing_denied built_tree.
Proof.
  apply link_free_no_stuck_artifact. vm_compute.
  repeat constructor; discriminate.
Qed.



(** C10 at the answer "Yes": it does not lowercase to "y", so neither
    upload command is run and both functions return [True]. *)
Lemma upload_iff_answer_lowercases_to_y_witness :
  commands (log (upload_to_test_pypi obliging_shell upload_run).2) =
    commands (log upload_run) ++
    (if bool_decide (lower "Yes" = "y")
     then ["twine upload --repository testpypi dist/*"] else []) /\
  commands (log (upload_to_pypi obliging_shell upload_run).2) =
    commands (log upload_run) ++
    (if bool_decide (lower "Yes" = "y") then ["twine upload dist/*"] else []) /\
  (lower "Yes" <> "y" ->
     (upload_to_test_pypi obliging_shell upload_run).1 = Val (PyBool true) /\
     (upload_to_pypi obliging_shell upload_run).1 = Val (PyBool true)) /\
  (lower "Yes" = "y" <-> "Yes" = "y" \/ "Yes" = "Y").
Proof.
  exact (upload_iff_answer_lowercases_to_y obliging_shell upload_run "Yes" [] eq_refl).
Defined.

(** C4 at the answer "Yes" after the loop of an upload run. *)
Lemma declined_upload_is_success_witness :
  after_steps obliging_shell "upload" upload_run =
    (Val tt,
     Process (argv upload_run) [] (sys upload_run)
       (log upload_run ++
        [Output (nl +:+ "✅ Package built successfully!");
         Call "upload_to_pypi"; Output pypi_prompt;
         Input "Yes"; Output "Upload cancelled.";
         Output (nl +:+ "🎉 Build process completed!")])) /\
  exit_code (after_steps obliging_shell "upload" upload_run).1 = 0%Z /\
  commands (log (after_steps obliging_shell "upload" upload_run).2) =
    commands (log upload_run).
Proof.
  pose proof (declined_upload_is_success obliging_shell upload_run "Yes" []
                eq_refl ltac:(discriminate)) as (_ & Hu & Hall).
  split; [exact Hu|]. apply Hall. by right.
Defined.

(** C7 at the answer "y" after the loop of a test-upload run. *)
Lemma confirmed_upload_runs_matching_command_once_witness :
  commands (log (after_steps obliging_shell "test-upload" test_upload_run).2) =
    commands (log test_upload_run) ++ ["twine upload --repository testpypi dist/*"] /\
  calls (log (after_steps obliging_shell "test-upload" test_upload_run).2) =
    calls (log test_upload_run) ++ ["upload_to_test_pypi"].
Proof.
  exact (proj1 (confirmed_upload_runs_matching_command_once key_order nothing_denied obliging_shell
                  "python3" test_upload_run "y" [] eq_refl eq_refl)).
Defined.

(** C3 at a build whose requirements are met and whose build command
    fails: the loop, taken up after [clean_build], passes
    [check_requirements], stops at [build_package] and never enters
    [check_package]. *)
Lemma failing_step_halts_pipeline_witness :
  (run_steps
     ([ (check_requirements failing_build_shell "python3", "Check requirements") ] ++
      (build_package failing_build_shell "python3", "Build package") ::
      [ (check_package failing_build_shell, "Check package") ]);;
   after_steps failing_build_shell "build") fresh_build_run =
    (Exit 1,
     Process ["build.py"; "build"] [] (Host fresh_tree tools)
       (log (build_package failing_build_shell "python3"
               (check_requirements failing_build_shell "python3" fresh_build_run).2).2 ++
        [Output (nl +:+ "❌ Build failed at step: " +:+ "Build package")])) /\
  calls (log (build_package failing_build_shell "python3"
                (check_requirements failing_build_shell "python3" fresh_build_run).2).2) =
    ["check_requirements"; "build_package"] /\
  commands (log (build_package failing_build_shell "python3"
                   (check_requirements failing_build_shell "python3" fresh_build_run).2).2) =
    ["python3 -m build"].
Proof.
  split; [|split; vm_compute; reflexivity].
  refine (proj1 (failing_step_halts_pipeline key_order nothing_denied
            failing_build_shell "python3" "build"
            [ (clean_build key_order nothing_denied, "Clean build artifacts") ]
            [ (check_requirements failing_build_shell "python3", "Check requirements") ]
            [ (check_package failing_build_shell, "Check package") ]
            (build_package failing_build_shell "python3") "Build package"
            fresh_build_run
            (check_requirements failing_build_shell "python3" fresh_build_run).2
            (build_package failing_build_shell "python3"
               (check_requirements failing_build_shell "python3" fresh_build_run).2).2
            (PyBool false) eq_refl _ _ eq_refl)).
  - vm_compute. reflexivity.
  - vm_compute. reflexivity.
Defined.

(** C1 at a build run with both tools installed and a shell on which every
    command would succeed. *)
Lemma build_halts_after_clean_build_witness :
  (main key_order nothing_denied obliging_shell "python3" build_run).1 = Exit 1 /\
  exit_code (main key_order nothing_denied obliging_shell "python3" build_run).1 = 1%Z /\
  calls (log (main key_order nothing_denied obliging_shell "python3" build_run).2) =
    calls (log build_run) ++ ["clean_build"] /\
  commands (log (main key_order nothing_denied obliging_shell "python3" build_run).2) =
    commands (log build_run) /\
  last (log (main key_order nothing_denied obliging_shell "python3" build_run).2) =
    Some (Output (nl +:+ "❌ Build failed at step: Clean build artifacts")).
Proof.
  pose proof (build_halts_after_clean_build key_order nothing_denied obliging_shell "python3"
                build_run (select_action build_run).2 "build" eq_refl
                ltac:(by left)) as (Hcode & Hcalls & Hcmds & _ & Hfree & _).
  destruct (Hfree built_tree_unstuck) as [Hexit Hlast].
  split; [exact Hexit|]. split; [exact Hcode|]. split; [exact Hcalls|].
  split; [exact Hcmds|exact Hlast].
Defined.

(** C2 at a test-upload run on a shell that refuses the upload command:
    [main] exits with status 1 although no command was run, and the code
    after the loop, with the answer "y", ends with status 0 although the
    upload command failed. *)
Lemma exit_status_ignores_step_outcomes_witness :
  exit_code (main key_order nothing_denied failing_upload_shell "python3"
               test_upload_run).1 = 1%Z /\
  commands (log (main key_order nothing_denied failing_upload_shell "python3"
                   test_upload_run).2) =
    commands (log test_upload_run) /\
  exit_code (after_steps failing_upload_shell "test-upload" test_upload_run).1 = 0%Z.
Proof.
  refine (exit_status_ignores_step_outcomes key_order nothing_denied
            failing_upload_shell "python3"
            test_upload_run (select_action test_upload_run).2
            "test-upload" "test-upload" test_upload_run "y" [] eq_refl _ eq_refl).
  right. by left.
Defined.

(** In that run the confirmed upload command was handed to the shell and
    failed: [upload_to_test_pypi] returned [False]. *)
Example refused_upload_returns_false :
  (upload_to_test_pypi failing_upload_shell test_upload_run).1 = Val (PyBool false) /\
  commands (log (upload_to_test_pypi failing_upload_shell test_upload_run).2) =
    ["twine upload --repository testpypi dist/*"].
Proof. split; reflexivity. Qed.

(** C5 at the action "deploy". *)
Lemma unknown_action_runs_nothing_witness :
  main key_order nothing_denied obliging_shell "python3" deploy_run =
    (Exit 1,
     Process (argv (select_action deploy_run).2) (stdin (select_action deploy_run).2)
       (sys (select_action deploy_run).2)
       (log (select_action deploy_run).2 ++ [Output ("❌ Unknown action: " +:+ "deploy")])) /\
  exit_code (main key_order nothing_denied obliging_shell "python3" deploy_run).1 = 1%Z /\
  sys (main key_order nothing_denied obliging_shell "python3" deploy_run).2 = sys deploy_run /\
  calls (log (main key_order nothing_denied obliging_shell "python3" deploy_run).2) =
    calls (log deploy_run) /\
  commands (log (main key_order nothing_denied obliging_shell "python3" deploy_run).2) =
    commands (log deploy_run) /\
  removed (log (main key_order nothing_denied obliging_shell "python3" deploy_run).2) =
    removed (log deploy_run).
Proof.
  refine (unknown_action_runs_nothing key_order nothing_denied obliging_shell "python3"
            deploy_run (select_action deploy_run).2 "deploy" eq_refl _).
  rewrite !not_elem_of_cons. repeat split; try discriminate. apply not_elem_of_nil.
Defined.




(** The same where the system does not let [dist] go: [build] is removed,
    then [rmtree] raises on [dist], in the first run and in the second. *)
Example clean_build_twice_fails_on_denied_artifact :
  (clean_build key_order dist_denied build_run).1 = Raise "OSError" /\
  removed (log (clean_build key_order dist_denied build_run).2) = ["build"] /\
  (clean_build key_order dist_denied (clean_build key_order dist_denied build_run).2).1 =
    Raise "OSError".
Proof. repeat split; vm_compute; reflexivity. Qed.


(** C8 on a host where only twine is importable: the installer is called
    once, for "build" alone, and the step succeeds when it does. *)
Example check_requirements_installs_build_only :
  let p := Process ["build.py"] [] (Host ∅ {[ "twine" ]}) [] in
  commands (log (check_requirements obliging_shell "python3" p).2) =
    ["python3 -m pip install build"] /\
  (check_requirements obliging_shell "python3" p).1 = Val (PyBool true) /\
  (check_requirements (refusing_shell "python3 -m pip install build") "python3" p).1 =
    Val (PyBool false).
Proof. repeat split; vm_compute; reflexivity. Qed.

(** C8 on a host where neither tool is importable. *)
Example check_requirements_installs_both :
  let p := Process ["build.py"] [] (Host ∅ ∅) [] in
  commands (log (check_requirements obliging_shell "python3" p).2) =
    ["python3 -m pip install build twine"].
Proof. vm_compute. reflexivity. Qed.

(** X3 at [python build.py] with nothing to read. *)
Lemma main_at_end_of_input_witness :
  (main key_order nothing_denied obliging_shell "python3" silent_run).1 = Raise "EOFError" /\
  exit_code (main key_order nothing_denied obliging_shell "python3" silent_run).1 = 1%Z /\
  sys (main key_order nothing_denied obliging_shell "python3" silent_run).2 = sys silent_run /\
  calls (appended silent_run
           (main key_order nothing_denied obliging_shell "python3" silent_run).2) = [] /\
  commands (appended silent_run
              (main key_order nothing_denied obliging_shell "python3" silent_run).2) = [] /\
  removed (appended silent_run
             (main key_order nothing_denied obliging_shell "python3" silent_run).2) = [].
Proof.
  refine (main_at_end_of_input key_order nothing_denied obliging_shell "python3"
            silent_run _ eq_refl).
  simpl. lia.
Defined.

(** X7 at "CLEAN" typed at the prompt: the action is "clean". *)
Lemma select_action_yields_lowercase_witness :
  lower "clean" = "clean" /\
  sys (select_action clean_run).2 = sys clean_run /\
  argv (select_action clean_run).2 = argv clean_run /\
  (List.length (argv clean_run) <= 1 ->
     "clean" <> EmptyString /\
     exists line, stdin clean_run = line :: stdin (select_action clean_run).2) /\
  (2 <= List.length (argv clean_run) ->
     stdin (select_action clean_run).2 = stdin clean_run /\
     lower <$> argv clean_run !! 1 = Some "clean").
Proof.
  exact (select_action_yields_lowercase clean_run (select_action clean_run).2 "clean"
           eq_refl).
Defined.

(** X6 at a run whose input is at its end. *)
Lemma upload_at_end_of_input_witness :
  (upload_to_test_pypi obliging_shell build_run).1 = Raise "EOFError" /\
  (upload_to_pypi obliging_shell build_run).1 = Raise "EOFError" /\
  commands (appended build_run (upload_to_test_pypi obliging_shell build_run).2) = [] /\
  commands (appended build_run (upload_to_pypi obliging_shell build_run).2) = [] /\
  (forall action, action = "test-upload" \/ action = "upload" ->
     exit_code (after_steps obliging_shell action build_run).1 = 1%Z /\
     commands (appended build_run (after_steps obliging_shell action build_run).2) = [] /\
     sys (after_steps obliging_shell action build_run).2 = sys build_run).
Proof.
  exact (upload_at_end_of_input obliging_shell build_run eq_refl).
Defined.

(** X5 on a host where twine is missing and the build command fails: the
    installer and the build are run, the package check is not. *)
Example later_steps_stop_at_failed_build :
  let p := Process ["build.py"; "build"] [] (Host ∅ {[ "build" ]}) [] in
  let run := run_steps (tail (steps key_order nothing_denied failing_build_shell "python3")) p in
  run.1 = Exit 1 /\
  commands (log run.2) = ["python3 -m pip install twine"; "python3 -m build"] /\
  calls (log run.2) = ["check_requirements"; "build_package"] /\
  last (log run.2) = Some (Output (nl +:+ "❌ Build failed at step: Build package")).
Proof. repeat split; vm_compute; reflexivity. Qed.

(** X1 and X2 on the checkout with old artifacts: what is left, and what
    was removed, in whatever order. *)
Example clean_build_on_built_tree :
  (map_to_list (cwd (sys (clean_build key_order nothing_denied build_run).2))).*1 ≡ₚ
    ["pipe.egg-info"; "pyproject.toml"; "src"] /\
  removed (log (clean_build key_order nothing_denied build_run).2) ≡ₚ
    ["build"; "dist"; "ha_desktop_remote.egg-info"; "stale.egg-info"].
Proof.
  split; vm_compute.
  - apply (bool_decide_unpack _). vm_compute. exact I.
  - apply (bool_decide_unpack _). vm_compute. exact I.
Qed.
